(** * The image-generation request handler of gemini-api

    A shallow embedding of the [POST] handler of
    [app/api/generate-image/route.ts], first in its two revisions that
    upload to object storage:

    - [Route]: moderation, then the Gemini image model, then the upload
      (the current [route.ts]);
    - [StabilityRoute]: no moderation, a chain of Stability credentials with
      the Gemini image model as fallback, then the upload.

    The oldest revision, which returns the image data inline and uploads
    nothing, is [InlineRoute]; the two Telegram helpers of [route.ts] are
    in [Telegram].

    JavaScript values are a small untyped universe [js]; the SDK responses
    the handler is type-checked against are records.  External collaborators
    (the generative-AI SDK, [fetch] against the Stability endpoint, the
    Cloudinary uploader, the clock, the process environment) are the fields
    of a [World] and an [Env]: the handler is a function of them and returns
    its response together with the list of external calls it made.
    [console] output is not part of the model. *)

From Stdlib Require Import String Ascii List ZArith Bool Lia.
From Stdlib Require Import DecimalString DecimalZ.
Import ListNotations.
Open Scope string_scope.
Open Scope Z_scope.

(** ** Strings

    A string is its sequence of UTF-16 code units, each below 256 here:
    text with other characters is outside the model.  On these strings
    [trim] is JavaScript's: of the code units below 256, the white space
    and line terminators are TAB, LF, VT, FF, CR, SPACE and NO-BREAK SPACE
    (160).  [toUpperCase] maps [a-z] to [A-Z] and is JavaScript's on ASCII
    text, the strings of [is_ascii]. *)

Module JsString.

Definition is_white_space (c : ascii) : bool :=
  let n := nat_of_ascii c in
  ((9 <=? n) && (n <=? 13))%nat || (n =? 32)%nat || (n =? 160)%nat.

Definition upper_char (c : ascii) : ascii :=
  let n := nat_of_ascii c in
  if ((97 <=? n) && (n <=? 122))%nat then ascii_of_nat (n - 32) else c.

Fixpoint toUpperCase (s : string) : string :=
  match s with
  | EmptyString => EmptyString
  | String c r => String (upper_char c) (toUpperCase r)
  end.

Fixpoint trimStart (s : string) : string :=
  match s with
  | EmptyString => EmptyString
  | String c r => if is_white_space c then trimStart r else s
  end.

Fixpoint trimEnd (s : string) : string :=
  match s with
  | EmptyString => EmptyString
  | String c r =>
      match trimEnd r with
      | EmptyString => if is_white_space c then EmptyString
                       else String c EmptyString
      | r' => String c r'
      end
  end.

Definition trim (s : string) : string := trimEnd (trimStart s).

(** [s.startsWith(p)] *)
Fixpoint startsWith (s p : string) : bool :=
  match p, s with
  | EmptyString, _ => true
  | String _ _, EmptyString => false
  | String a p', String b s' => Ascii.eqb a b && startsWith s' p'
  end.

(** [s.substring(n)]: the string without its first [n] code units. *)
Fixpoint substring_from (n : nat) (s : string) : string :=
  match n, s with
  | O, _ => s
  | S _, EmptyString => EmptyString
  | S m, String _ r => substring_from m r
  end.

(** [s.split(',')]: never the empty list. *)
Fixpoint split_comma (s : string) : list string :=
  match s with
  | EmptyString => [EmptyString]
  | String c r =>
      if Ascii.eqb c "," then EmptyString :: split_comma r
      else match split_comma r with
           | [] => [String c EmptyString]
           | x :: xs => String c x :: xs
           end
  end.

Definition is_empty (s : string) : bool :=
  match s with EmptyString => true | _ => false end.

Definition is_ascii_char (c : ascii) : bool := (nat_of_ascii c <? 128)%nat.

(** Every code unit is below 128: the strings on which [toUpperCase] above
    is exactly JavaScript's. *)
Fixpoint is_ascii (s : string) : bool :=
  match s with
  | EmptyString => true
  | String c r => is_ascii_char c && is_ascii r
  end.

(** Decimal rendering of an integer, as a template literal renders an
    integral number. *)
Definition of_Z (z : Z) : string := NilEmpty.string_of_int (Z.to_int z).

End JsString.

(** ** JavaScript values

    What [JSON.parse] produces, plus [undefined].  [Num n] stands for the
    number [n] when [n] is a safe integer (below 2^53 in magnitude), where
    a template literal renders it in plain decimal; other numbers are
    outside the model. *)

#[local] Set Warnings "-register-all".

Inductive js : Type :=
| Undefined
| Null
| Bool (b : bool)
| Num (n : Z)
| Str (s : string)
| Arr (xs : list js)
| Obj (fields : list (string * js)).

Module Js.

(** [ToBoolean] *)
Definition truthy (v : js) : bool :=
  match v with
  | Undefined | Null => false
  | Bool b => b
  | Num n => negb (n =? 0)
  | Str s => negb (JsString.is_empty s)
  | Arr _ | Obj _ => true
  end.

(** [a || b] *)
Definition or (a b : js) : js := if truthy a then a else b.

Fixpoint assoc (k : string) (fields : list (string * js)) : js :=
  match fields with
  | [] => Undefined
  | (k', v) :: rest => if String.eqb k k' then v else assoc k rest
  end.

Definition nullish (v : js) : bool :=
  match v with Undefined | Null => true | _ => false end.

(** [v?.k] for the property names the handler reads ([prompt], [chatId],
    [userId], [sharedSecret], [image], [artifacts], [base64], [b64_json],
    [base64_image]): own properties of objects only; primitives and arrays
    have none of them. *)
Definition get (v : js) (k : string) : js :=
  match v with
  | Obj fields => assoc k fields
  | _ => Undefined
  end.

(** [v?.[0]] *)
Definition get0 (v : js) : js :=
  match v with
  | Arr (x :: _) => x
  | Str (String c _) => Str (String c EmptyString)
  | Obj fields => assoc "0" fields
  | _ => Undefined
  end.

Fixpoint join_comma (xs : list string) : string :=
  match xs with
  | [] => ""
  | [x] => x
  | x :: rest => x ++ "," ++ join_comma rest
  end.

Fixpoint has_own (k : string) (fields : list (string * js)) : bool :=
  match fields with
  | [] => false
  | (k', _) :: rest => String.eqb k k' || has_own k rest
  end.

(** [String(v)], the conversion a template literal applies; [None] when it
    throws a [TypeError].  An object made by [JSON.parse] has no primitive
    value exactly when it has an own [toString] property (which is never
    callable, and shadows [Object.prototype.toString]); an array is the
    join of its elements. *)
Fixpoint to_string (v : js) : option string :=
  match v with
  | Undefined => Some "undefined"
  | Null => Some "null"
  | Bool true => Some "true"
  | Bool false => Some "false"
  | Num n => Some (JsString.of_Z n)
  | Str s => Some s
  | Arr xs =>
      option_map join_comma
        ((fix elements (l : list js) : option (list string) :=
            match l with
            | [] => Some []
            | x :: rest =>
                match (if nullish x then Some "" else to_string x),
                      elements rest with
                | Some a, Some b => Some (a :: b)
                | _, _ => None
                end
            end) xs)
  | Obj fields =>
      if has_own "toString" fields then None else Some "[object Object]"
  end.

(** [a === b] between a value and a string-or-undefined. *)
Definition strict_eq_opt_string (a : js) (b : option string) : bool :=
  match a, b with
  | Undefined, None => true
  | Str s, Some t => String.eqb s t
  | _, _ => false
  end.

End Js.

(** ** Thrown values, responses, and the handler's monad *)

(** What the handler's [catch] clause reads of a thrown value:
    [error.message]; whether [error.response?.text] is truthy, together with
    what awaiting [error.response.text()] then yields; and
    [JSON.stringify(error)]. *)
Inductive JsError : Type :=
| mkJsError (message : js)
            (response_text : option (JsError + js))
            (stringified : js).

Definition message (e : JsError) : js :=
  match e with mkJsError m _ _ => m end.
Definition response_text (e : JsError) : option (JsError + js) :=
  match e with mkJsError _ r _ => r end.
Definition stringified (e : JsError) : js :=
  match e with mkJsError _ _ j => j end.

(** [new Error(msg)], and the built-in [TypeError] and [SyntaxError]: no
    [response] property, no own enumerable property. *)
Definition Error (msg : string) : JsError :=
  mkJsError (Str msg) None (Str "{}").

(** [NextResponse.json(body, { status })]; the status defaults to 200. *)
Record Response : Type := mkResponse {
  status : Z;
  body : js
}.

Module NextResponse.
Definition json (body : js) (init : option Z) : Response :=
  {| status := match init with Some s => s | None => 200 end; body := body |}.
End NextResponse.

(** The external calls a request can make, in the order made. *)
Inductive Call : Type :=
| GenerateContent (model : string) (request : js)
| StabilityFetch (attempt : nat) (apiKey : string) (promptText : js)
| CloudinaryUpload (file : string) (folder : string) (public_id : string).

(** The [let] variables of [POST] that its [catch] clause can observe. *)
Record Locals : Type := mkLocals {
  chatId : js;
  requestPrompt : js
}.

(** How a statement completes: normally, by [throw], or by [return]. *)
Inductive completion (A : Type) : Type :=
| Normal (a : A)
| Throw (e : JsError)
| Return (r : Response).
Arguments Normal {A} a.
Arguments Throw {A} e.
Arguments Return {A} r.

Definition M (A : Type) : Type := Locals -> completion A * Locals * list Call.

Definition ret {A} (a : A) : M A := fun s => (Normal a, s, []).

Definition bind {A B} (m : M A) (f : A -> M B) : M B :=
  fun s =>
    match m s with
    | (Normal a, s', t) =>
        let '(c, s'', t') := f a s' in (c, s'', (t ++ t')%list)
    | (Throw e, s', t) => (Throw e, s', t)
    | (Return r, s', t) => (Return r, s', t)
    end.

Definition throw {A} (e : JsError) : M A := fun s => (Throw e, s, []).

Definition return_ {A} (r : Response) : M A := fun s => (Return r, s, []).

(** [try { m } catch (e) { h e }]: only a [throw] reaches the handler. *)
Definition try_catch {A} (m : M A) (h : JsError -> M A) : M A :=
  fun s =>
    match m s with
    | (Throw e, s', t) =>
        let '(c, s'', t') := h e s' in (c, s'', (t ++ t')%list)
    | other => other
    end.

(** An awaited external call: recorded, then completed by its result. *)
Definition await {A} (c : Call) (result : JsError + A) : M A :=
  fun s =>
    (match result with inl e => Throw e | inr a => Normal a end, s, [c]).

(** A local computation that may throw. *)
Definition lift {A} (result : JsError + A) : M A :=
  fun s => (match result with inl e => Throw e | inr a => Normal a end, s, []).

Definition set_chatId (v : js) : M unit :=
  fun s => (Normal tt, {| chatId := v; requestPrompt := requestPrompt s |}, []).

Definition set_requestPrompt (v : js) : M unit :=
  fun s => (Normal tt, {| chatId := chatId s; requestPrompt := v |}, []).

Definition get_requestPrompt : M js :=
  fun s => (Normal (requestPrompt s), s, []).

Notation "x <- m ;; k" := (bind m (fun x => k))
  (at level 61, m at next level, right associativity).
Notation "m ;;; k" := (bind m (fun _ => k))
  (at level 61, right associativity).

(** What the caller of an async handler sees: a response, or a rejected
    promise when a [throw] escapes the handler. *)
Inductive Outcome : Type :=
| Responded (r : Response)
| Rejected (e : JsError).

(** Runs a handler body from its initial locals
    ([let chatId = 0; let requestPrompt = '']).  A body of type
    [M Empty_set] cannot fall off its end. *)
Definition run (m : M Empty_set) : Outcome * list Call :=
  match m {| chatId := Num 0; requestPrompt := Str "" |} with
  | (Normal a, _, _) => match a with end
  | (Throw e, _, t) => (Rejected e, t)
  | (Return r, _, t) => (Responded r, t)
  end.

(** ** The collaborators *)

(** The generative-AI SDK's response type, as far as the handler reads it. *)
Module Sdk.

Record InlineData : Type := mkInlineData {
  mimeType : string;
  data : string
}.

Record Part : Type := mkPart {
  text : option string;
  inlineData : option InlineData
}.

(** A candidate is read through [content.parts] only.  Either level can
    be missing in what the service sends: a candidate stopped for safety
    comes without [content], and a content can come without [parts]. *)
Module Content.
Record t : Type := mk {
  parts : option (list Part)
}.
End Content.

Record Candidate : Type := mkCandidate {
  content : option Content.t
}.

(** The parts of a candidate; none when it has no content or its content
    has no parts. *)
Definition parts (c : Candidate) : list Part :=
  match content c with
  | Some {| Content.parts := Some ps |} => ps
  | _ => []
  end.

Record GenerateContentResponse : Type := mkResponse {
  response_text : JsError + string;     (* what [response.text()] does *)
  candidates : option (list Candidate);
  promptFeedback : js
}.

(** The data of these records as the [js] value that is placed in a
    response body. *)
Definition js_of_string_option (o : option string) : js :=
  match o with Some s => Str s | None => Undefined end.

Definition js_of_InlineData (d : InlineData) : js :=
  Obj [("mimeType", Str (mimeType d)); ("data", Str (data d))].

Definition js_of_Part (p : Part) : js :=
  Obj [("text", js_of_string_option (text p));
       ("inlineData",
        match inlineData p with
        | Some d => js_of_InlineData d
        | None => Undefined
        end)].

Definition js_of_Candidate (c : Candidate) : js :=
  Obj [("content",
        match content c with
        | Some {| Content.parts := Some ps |} =>
            Obj [("parts", Arr (map js_of_Part ps))]
        | Some {| Content.parts := None |} => Obj [("parts", Undefined)]
        | None => Undefined
        end)].

Definition js_of_candidates (cs : option (list Candidate)) : js :=
  match cs with
  | Some l => Arr (map js_of_Candidate l)
  | None => Undefined
  end.

Definition js_of_GenerateContentResponse (r : GenerateContentResponse) : js :=
  Obj [("candidates", js_of_candidates (candidates r));
       ("promptFeedback", promptFeedback r)].

End Sdk.

(** The [Response] that [fetch] resolves to. *)
Module Fetch.
Record Response : Type := mkResponse {
  ok : bool;
  status : Z;
  json : JsError + js;        (* what [res.json()] does *)
  text : JsError + string     (* what [res.text()] does *)
}.
End Fetch.

Module Cloudinary.
Record UploadApiResponse : Type := mkUploadApiResponse {
  secure_url : string
}.
End Cloudinary.

(** [process.env] *)
Module process_env.
Record t : Type := mk {
  SHARED_SECRET : option string;
  STABILITY_KEYS : option string;
  STABILITY_KEY : option string
}.
End process_env.

(** Where the engine raises a [TypeError] in the handler: destructuring
    a [null] body, reading a property of [null] or [undefined]
    ([data.image] of a [null] payload, [content.parts] of an absent
    content, [parts.find] of absent parts), and converting an object that
    has no primitive value. *)
Inductive TypeErrorSite : Type :=
| Destructuring
| PropertyRead (property : string)
| ToPrimitive.

(** Everything outside the handler: what each external call answers, the
    clock, and the two pieces of the runtime whose text the model does not
    fix: [JSON.stringify], and the message of each [TypeError]. *)
Record World : Type := mkWorld {
  generateContent : string -> js -> JsError + Sdk.GenerateContentResponse;
  fetch : nat -> string -> js -> JsError + Fetch.Response;
  upload : string -> string -> string -> JsError + Cloudinary.UploadApiResponse;
  Date_now : Z;
  JSON_stringify : js -> string;
  TypeError_message : TypeErrorSite -> string
}.

(** The inbound request, by what [req.json()] does with its body: a body
    that is not JSON makes it throw a [SyntaxError]. *)
Inductive NextRequest : Type :=
| InvalidJson (syntax_error_message : string)
| JsonBody (v : js).

Definition req_json (req : NextRequest) : JsError + js :=
  match req with
  | InvalidJson msg => inl (Error msg)
  | JsonBody v => inr v
  end.

(** [const { prompt, chatId: chatIdFromBody, userId, sharedSecret } = v] *)
Record Destructured : Type := mkDestructured {
  prompt : js;
  chatIdFromBody : js;
  userId : js;
  sharedSecret : js
}.

Definition destructure (w : World) (v : js) : M Destructured :=
  if Js.nullish v then throw (Error (TypeError_message w Destructuring))
  else ret {| prompt := Js.get v "prompt";
              chatIdFromBody := Js.get v "chatId";
              userId := Js.get v "userId";
              sharedSecret := Js.get v "sharedSecret" |}.

Definition IMAGE_GENERATION_MODEL : string :=
  "gemini-2.0-flash-preview-image-generation".
Definition MODERATION_MODEL : string := "gemini-1.5-flash".

(** [genAI.getGenerativeModel({ model }).generateContent(request)] *)
Definition model_generateContent (w : World) (model : string) (request : js)
  : M Sdk.GenerateContentResponse :=
  await (GenerateContent model request) (generateContent w model request).

(** [cloudinary.uploader.upload(file, { folder, public_id })] *)
Definition uploader_upload (w : World) (file folder public_id : string)
  : M Cloudinary.UploadApiResponse :=
  await (CloudinaryUpload file folder public_id)
        (upload w file folder public_id).

(** The request sent to the image model. *)
Definition image_request (prompt : js) : js :=
  Obj [("contents",
        Arr [Obj [("role", Str "user");
                  ("parts", Arr [Obj [("text", prompt)]])]]);
       ("generationConfig",
        Obj [("responseModalities", Arr [Str "TEXT"; Str "IMAGE"])])].

(** [p => p.inlineData && p.inlineData.mimeType.startsWith('image/')] *)
Definition is_image_part (p : Sdk.Part) : bool :=
  match Sdk.inlineData p with
  | Some d => JsString.startsWith (Sdk.mimeType d) "image/"
  | None => false
  end.

(** [p => p.text] *)
Definition is_text_part (p : Sdk.Part) : bool :=
  Js.truthy (Sdk.js_of_string_option (Sdk.text p)).

(** [candidate.content.parts], as the receiver of [.find(...)]: reading
    [parts] throws when the candidate has no content, and reading [find]
    throws when the content has no parts. *)
Definition content_parts (w : World) (candidate : Sdk.Candidate)
  : M (list Sdk.Part) :=
  match Sdk.content candidate with
  | None => throw (Error (TypeError_message w (PropertyRead "parts")))
  | Some content =>
      match Sdk.Content.parts content with
      | None => throw (Error (TypeError_message w (PropertyRead "find")))
      | Some parts => ret parts
      end
  end.

(** [`${v}`] *)
Definition template_value (w : World) (v : js) : M string :=
  match Js.to_string v with
  | Some s => ret s
  | None => throw (Error (TypeError_message w ToPrimitive))
  end.

(** The outer [catch (error)] clause, the same in both revisions. *)
Definition catch_clause (error : JsError) : M Empty_set :=
  requestPrompt <- get_requestPrompt ;;
  details <- match response_text error with
             | Some t => lift t
             | None => ret (stringified error)
             end ;;
  return_ (NextResponse.json
             (Obj [("status", Str "error");
                   ("message",
                    Js.or (message error) (Str "Internal server error"));
                   ("prompt", requestPrompt);
                   ("details", details)])
             (Some 500)).

(** ** [route.ts]: moderation, Gemini image model, upload *)

Module Route.

Definition moderationInstruction : string :=
  "You are a content safety expert. Analyze the following user prompt for any content that could be harmful, sexually explicit, hateful, or promote violence, illegal activities, or self-harm. Respond ONLY with 'SAFE' if the prompt is acceptable, or 'UNSAFE' followed by a brief reason if it is not. Focus on the user's *intent* to generate an image.".

(** [moderationResponseText.substring(5).trim() || "Content deemed unsafe."] *)
Definition moderation_reason (moderationResponseText : string) : js :=
  Js.or (Str (JsString.trim (JsString.substring_from 5 moderationResponseText)))
        (Str "Content deemed unsafe.").

(** [`gemini-gen-${Date.now()}`] *)
Definition public_id (w : World) : string :=
  "gemini-gen-" ++ JsString.of_Z (Date_now w).

(** The inner [try]/[catch] around the upload; yields [imageUrl]. *)
Definition upload_image (w : World) (prompt : js) (mimeType imageData : string)
  : M string :=
  try_catch
    (let base64ImageWithPrefix :=
       "data:" ++ mimeType ++ ";base64," ++ imageData in
     uploadResult <- uploader_upload w base64ImageWithPrefix
                       "gemini-telegram-images" (public_id w) ;;
     ret (Cloudinary.secure_url uploadResult))
    (fun cloudinaryError =>
       return_ (NextResponse.json
                  (Obj [("status", Str "error");
                        ("message", Str "Failed to upload image to cloud storage");
                        ("prompt", prompt);
                        ("cloudinaryError", message cloudinaryError)])
                  (Some 500))).

(** The body of the outer [try]. *)
Definition try_block (env : process_env.t) (w : World) (req : NextRequest)
  : M Empty_set :=
  v <- lift (req_json req) ;;
  d <- destructure w v ;;
  let prompt := prompt d in
  set_chatId (chatIdFromBody d) ;;;
  set_requestPrompt prompt ;;;
  if negb (Js.strict_eq_opt_string (sharedSecret d)
             (process_env.SHARED_SECRET env))
  then return_ (NextResponse.json
                  (Obj [("error", Str "Unauthorized request")]) (Some 401))
  else
  moderationResult <- model_generateContent w MODERATION_MODEL
                        (Arr [Str moderationInstruction; prompt]) ;;
  t <- lift (Sdk.response_text moderationResult) ;;
  let moderationResponseText := JsString.trim t in
  if JsString.startsWith (JsString.toUpperCase moderationResponseText) "UNSAFE"
  then
    let reason := moderation_reason moderationResponseText in
    return_ (NextResponse.json
               (Obj [("status", Str "moderated");
                     ("message", reason);
                     ("prompt", prompt);
                     ("moderationFeedback",
                      Sdk.promptFeedback moderationResult)])
               None)
  else
  imageGenResult <- model_generateContent w IMAGE_GENERATION_MODEL
                      (image_request prompt) ;;
  match Sdk.candidates imageGenResult with
  | None | Some [] =>
      return_ (NextResponse.json
                 (Obj [("status", Str "error");
                       ("message", Str "No image candidates found");
                       ("prompt", prompt);
                       ("geminiResponse",
                        Sdk.js_of_GenerateContentResponse imageGenResult)])
                 (Some 500))
  | Some (candidate0 :: _) =>
      parts <- content_parts w candidate0 ;;
      let imagePart := find is_image_part parts in
      let textPart := find is_text_part parts in
      match option_map Sdk.inlineData imagePart with
      | Some (Some inlineData) =>
          let imageData := Sdk.data inlineData in
          let mimeType := Sdk.mimeType inlineData in
          let caption :=
            match textPart with
            | Some p => Sdk.js_of_string_option (Sdk.text p)
            | None => prompt
            end in
          imageUrl <- upload_image w prompt mimeType imageData ;;
          if JsString.is_empty imageUrl
          then return_ (NextResponse.json
                          (Obj [("status", Str "error");
                                ("message", Str "Image URL not available");
                                ("prompt", prompt)])
                          (Some 500))
          else return_ (NextResponse.json
                          (Obj [("status", Str "success");
                                ("imageUrl", Str imageUrl);
                                ("message", caption);
                                ("prompt", prompt);
                                ("generatedImage",
                                 Obj [("mimeType", Str mimeType);
                                      ("caption", caption);
                                      ("imageUrl", Str imageUrl)]);
                                ("geminiResponse",
                                 Obj [("candidates",
                                       Sdk.js_of_candidates
                                         (Sdk.candidates imageGenResult));
                                      ("promptFeedback",
                                       Sdk.promptFeedback imageGenResult)])])
                          None)
      | _ =>
          return_ (NextResponse.json
                     (Obj [("status", Str "error");
                           ("message",
                            Str "No image part found in Gemini response");
                           ("prompt", prompt);
                           ("geminiResponse",
                            Sdk.js_of_GenerateContentResponse imageGenResult)])
                     (Some 500))
      end
  end.

Definition POST (env : process_env.t) (w : World) (req : NextRequest)
  : Outcome * list Call :=
  run (try_catch (try_block env w req) catch_clause).

End Route.

(** ** The revision with the Stability credential chain *)

Module StabilityRoute.

(** [process.env.STABILITY_KEYS ?? process.env.STABILITY_KEY] *)
Definition STABILITY_KEYS_RAW (env : process_env.t) : option string :=
  match process_env.STABILITY_KEYS env with
  | Some s => Some s
  | None => process_env.STABILITY_KEY env
  end.

(** [RAW ? RAW.split(',').map(k => k.trim()).filter(Boolean) : []] *)
Definition STABILITY_KEYS (env : process_env.t) : list string :=
  match STABILITY_KEYS_RAW env with
  | Some raw =>
      if JsString.is_empty raw then []
      else filter (fun k => negb (JsString.is_empty k))
                  (map JsString.trim (JsString.split_comma raw))
  | None => []
  end.

Record StabilityResult : Type := mkStabilityResult {
  base64 : js;
  raw : js
}.

(** [data.image || data.artifacts?.[0]?.base64
     || data.artifacts?.[0]?.b64_json || data.artifacts?.[0]?.base64_image] *)
Definition extract_base64 (data : js) : js :=
  let artifact0 := Js.get0 (Js.get data "artifacts") in
  Js.or (Js.or (Js.or (Js.get data "image")
                      (Js.get artifact0 "base64"))
               (Js.get artifact0 "b64_json"))
        (Js.get artifact0 "base64_image").

(** [attempt] is the loop index of the call, so that the world may answer
    two calls with the same key differently.  The call is the whole
    exchange with the platform: building the [FormData] from [promptText]
    and the key, and posting it; [fetch w] answers with the [Response], or
    with what the exchange throws. *)
Definition generateWithStability (w : World) (attempt : nat)
    (promptText : js) (apiKey : string) : M StabilityResult :=
  res <- await (StabilityFetch attempt apiKey promptText)
               (fetch w attempt apiKey promptText) ;;
  if negb (Fetch.ok res) then
    bodyText <- try_catch (lift (Fetch.json res))
                  (fun _ => t <- lift (Fetch.text res) ;; ret (Str t)) ;;
    throw (Error ("Stability API error " ++ JsString.of_Z (Fetch.status res)
                    ++ ": " ++ JSON_stringify w bodyText))
  else
    data <- lift (Fetch.json res) ;;
    if Js.nullish data
    then throw (Error (TypeError_message w (PropertyRead "image")))
    else ret {| base64 := extract_base64 data; raw := data |}.

(** The [for] loop over the keys from index [i] on; yields [imageBase64] as
    the loop leaves it. *)
Fixpoint try_keys (w : World) (prompt : js) (i : nat) (keys : list string)
  : M js :=
  match keys with
  | [] => ret Undefined
  | key :: rest =>
      attempt <- try_catch
                   (stabilityResult <- generateWithStability w i prompt key ;;
                    ret (Some (base64 stabilityResult)))
                   (fun stErr => ret None) ;;
      match attempt with
      | Some imageBase64 => ret imageBase64            (* break *)
      | None => try_keys w prompt (S i) rest           (* try next key *)
      end
  end.

(** The block [if (STABILITY_KEYS.length > 0) { for (...) { ... } }];
    yields [imageBase64], which starts out [undefined]. *)
Definition stability_block (w : World) (prompt : js)
    (STABILITY_KEYS : list string) : M js :=
  if (0 <? length STABILITY_KEYS)%nat
  then try_keys w prompt 0 STABILITY_KEYS
  else ret Undefined.

(** [`generated-${Date.now()}`] *)
Definition public_id (w : World) : string :=
  "generated-" ++ JsString.of_Z (Date_now w).

Definition upload_image (w : World) (prompt : js) (mimeType : string)
    (imageBase64 : js) : M string :=
  try_catch
    (image <- template_value w imageBase64 ;;
     let base64ImageWithPrefix :=
       "data:" ++ mimeType ++ ";base64," ++ image in
     uploadResult <- uploader_upload w base64ImageWithPrefix
                       "gemini-telegram-images" (public_id w) ;;
     ret (Cloudinary.secure_url uploadResult))
    (fun cloudinaryError =>
       return_ (NextResponse.json
                  (Obj [("status", Str "error");
                        ("message", Str "Failed to upload image to cloud storage");
                        ("prompt", prompt);
                        ("cloudinaryError", message cloudinaryError)])
                  (Some 500))).

(** The Gemini fallback; yields [(imageBase64, mimeType, caption)]. *)
Definition gemini_fallback (w : World) (prompt : js) : M (js * string * js) :=
  imageGenResult <- model_generateContent w IMAGE_GENERATION_MODEL
                      (image_request prompt) ;;
  match Sdk.candidates imageGenResult with
  | None | Some [] =>
      return_ (NextResponse.json
                 (Obj [("status", Str "error");
                       ("message", Str "No image candidates found");
                       ("prompt", prompt);
                       ("geminiResponse",
                        Sdk.js_of_GenerateContentResponse imageGenResult)])
                 (Some 500))
  | Some (candidate0 :: _) =>
      parts <- content_parts w candidate0 ;;
      let imagePart := find is_image_part parts in
      let textPart := find is_text_part parts in
      match option_map Sdk.inlineData imagePart with
      | Some (Some inlineData) =>
          ret (Str (Sdk.data inlineData),
               Sdk.mimeType inlineData,
               match textPart with
               | Some p => Sdk.js_of_string_option (Sdk.text p)
               | None => prompt
               end)
      | _ =>
          return_ (NextResponse.json
                     (Obj [("status", Str "error");
                           ("message",
                            Str "No image part found in Gemini response");
                           ("prompt", prompt);
                           ("geminiResponse",
                            Sdk.js_of_GenerateContentResponse imageGenResult)])
                     (Some 500))
      end
  end.

Definition try_block (env : process_env.t) (w : World) (req : NextRequest)
  : M Empty_set :=
  v <- lift (req_json req) ;;
  d <- destructure w v ;;
  let prompt := prompt d in
  set_chatId (chatIdFromBody d) ;;;
  set_requestPrompt prompt ;;;
  if negb (Js.strict_eq_opt_string (sharedSecret d)
             (process_env.SHARED_SECRET env))
  then return_ (NextResponse.json
                  (Obj [("error", Str "Unauthorized request")]) (Some 401))
  else
  let STABILITY_KEYS := STABILITY_KEYS env in
  imageBase64 <- stability_block w prompt STABILITY_KEYS ;;
  generated <- (if negb (Js.truthy imageBase64)
                then gemini_fallback w prompt
                else ret (imageBase64, "image/png", prompt)) ;;
  let '(imageBase64, mimeType, caption) := generated in
  if negb (Js.truthy imageBase64)
  then return_ (NextResponse.json
                  (Obj [("status", Str "error");
                        ("message",
                         Str "Failed to generate image from any provider");
                        ("prompt", prompt)])
                  (Some 500))
  else
  imageUrl <- upload_image w prompt mimeType imageBase64 ;;
  return_ (NextResponse.json
             (Obj [("status", Str "success");
                   ("imageUrl", Str imageUrl);
                   ("message", caption);
                   ("prompt", prompt);
                   ("generatedImage",
                    Obj [("mimeType", Str mimeType);
                         ("caption", caption);
                         ("imageUrl", Str imageUrl)])])
             None).

Definition POST (env : process_env.t) (w : World) (req : NextRequest)
  : Outcome * list Call :=
  run (try_catch (try_block env w req) catch_clause).

End StabilityRoute.

(** ** Reading a trace and a response *)

Definition is_generateContent (model : string) (c : Call) : bool :=
  match c with
  | GenerateContent m _ => String.eqb m model
  | _ => false
  end.

Definition is_moderation_call : Call -> bool :=
  is_generateContent MODERATION_MODEL.
Definition is_image_model_call : Call -> bool :=
  is_generateContent IMAGE_GENERATION_MODEL.

Definition is_stability_call (c : Call) : bool :=
  match c with StabilityFetch _ _ _ => true | _ => false end.

Definition is_upload_call (c : Call) : bool :=
  match c with CloudinaryUpload _ _ _ => true | _ => false end.

(** The [public_id]s handed to the uploader, in order. *)
Definition upload_ids (t : list Call) : list string :=
  flat_map (fun c => match c with
                     | CloudinaryUpload _ _ id => [id]
                     | _ => []
                     end) t.

(** The keys tried against the Stability endpoint, in order. *)
Definition stability_keys_tried (t : list Call) : list string :=
  flat_map (fun c => match c with
                     | StabilityFetch _ key _ => [key]
                     | _ => []
                     end) t.

(** Whether an object has the property (a property holding [undefined]
    counts: [JSON.stringify] is what omits it on the wire). *)
Fixpoint has_key (k : string) (fields : list (string * js)) : bool :=
  match fields with
  | [] => false
  | (k', _) :: rest => String.eqb k k' || has_key k rest
  end.

Definition has_field (v : js) (k : string) : bool :=
  match v with Obj fields => has_key k fields | _ => false end.

Definition responded (o : Outcome * list Call) : option Response :=
  match fst o with Responded r => Some r | Rejected _ => None end.

(** The value of [requestPrompt] when the handler answers: the request's
    [prompt] once the body has been destructured, its initial [''] before. *)
Definition requestPrompt_of (req : NextRequest) : js :=
  match req with
  | InvalidJson _ => Str ""
  | JsonBody v => if Js.nullish v then Str "" else Js.get v "prompt"
  end.

(** A response with [status: 'success']. *)
Definition succeeded (o : Outcome * list Call) : Prop :=
  exists r, responded o = Some r /\ Js.get (body r) "status" = Str "success".

(** The property whose read fails in [candidate.content.parts.find], for a
    candidate that lacks one of the two levels. *)
Definition missing_level (c : Sdk.Candidate) : option string :=
  match Sdk.content c with
  | None => Some "parts"
  | Some {| Sdk.Content.parts := None |} => Some "find"
  | Some {| Sdk.Content.parts := Some _ |} => None
  end.

(** ** One Stability attempt, by the world's answer

    The vocabulary of the provider chain: how an answer of the Stability
    endpoint fails.  [attempt] summarises [generateWithStability] ([None]:
    it throws; [Some b]: it returns with [base64 = b]); lemma
    [generateWithStability_attempt] relates the two. *)

Module Attempt.

Definition non_success_status (a : JsError + Fetch.Response) : bool :=
  match a with
  | inr res => negb (Fetch.ok res)
  | inl _ => false
  end.

Definition malformed_payload (a : JsError + Fetch.Response) : bool :=
  match a with
  | inr res => Fetch.ok res
               && match Fetch.json res with inl _ => true | inr _ => false end
  | inl _ => false
  end.

Definition missing_image (a : JsError + Fetch.Response) : bool :=
  match a with
  | inr res =>
      Fetch.ok res
      && match Fetch.json res with
         | inr data =>
             negb (Js.nullish data)
             && negb (Js.truthy (StabilityRoute.extract_base64 data))
         | inl _ => false
         end
  | inl _ => false
  end.

Definition attempt (a : JsError + Fetch.Response) : option js :=
  match a with
  | inl _ => None
  | inr res =>
      if negb (Fetch.ok res) then None
      else match Fetch.json res with
           | inl _ => None
           | inr data =>
               if Js.nullish data then None
               else Some (StabilityRoute.extract_base64 data)
           end
  end.

(** The attempt yields no usable image: it throws, or returns a falsy
    [base64]. *)
Definition fails (a : JsError + Fetch.Response) : bool :=
  match attempt a with
  | None => true
  | Some b => negb (Js.truthy b)
  end.

End Attempt.

(** The Stability calls of a loop that runs through all of [keys] from
    index [i]. *)
Fixpoint stability_calls (prompt : js) (i : nat) (keys : list string)
  : list Call :=
  match keys with
  | [] => []
  | key :: rest =>
      StabilityFetch i key prompt :: stability_calls prompt (S i) rest
  end.

(** ** Concrete requests and worlds *)

Module Scenario.

Definition env : process_env.t :=
  {| process_env.SHARED_SECRET := Some "s3cret";
     process_env.STABILITY_KEYS := Some "key-one, key-two";
     process_env.STABILITY_KEY := None |}.

Definition json_body (prompt secret userId : string) : js :=
  Obj [("prompt", Str prompt); ("chatId", Num 42);
       ("userId", Str userId); ("sharedSecret", Str secret)].

Definition request (prompt secret userId : string) : NextRequest :=
  JsonBody (json_body prompt secret userId).

(** The candidate whose content has the parts [ps]. *)
Definition candidate_of (ps : list Sdk.Part) : Sdk.Candidate :=
  {| Sdk.content := Some {| Sdk.Content.parts := Some ps |} |}.

Definition fox_candidate : Sdk.Candidate :=
  candidate_of
    [ {| Sdk.text := Some "a red fox"; Sdk.inlineData := None |};
      {| Sdk.text := None;
         Sdk.inlineData :=
           Some {| Sdk.mimeType := "image/png";
                   Sdk.data := "iVBORw0KGgo=" |} |} ].

Definition status_reply (code : Z) : JsError + Fetch.Response :=
  inr {| Fetch.ok := false; Fetch.status := code;
         Fetch.json := inr (Obj [("name", Str "unauthorized")]);
         Fetch.text := inr "" |}.

Definition malformed_reply : JsError + Fetch.Response :=
  inr {| Fetch.ok := true; Fetch.status := 200;
         Fetch.json := inl (Error "Unexpected end of JSON input");
         Fetch.text := inr "" |}.

Definition json_reply (data : js) : JsError + Fetch.Response :=
  inr {| Fetch.ok := true; Fetch.status := 200;
         Fetch.json := inr data; Fetch.text := inr "" |}.

(** A world whose moderation model answers [moderation], whose image model
    answers with [candidates], whose Stability endpoint answers the call of
    loop index [i] with [stability i], whose uploader stores every file
    under a URL made of the [public_id], and whose clock reads [now]. *)
Definition world (moderation : string)
    (candidates : option (list Sdk.Candidate))
    (stability : nat -> JsError + Fetch.Response) (now : Z) : World :=
  {| generateContent := fun model _ =>
       if String.eqb model MODERATION_MODEL
       then inr {| Sdk.response_text := inr moderation;
                   Sdk.candidates := None;
                   Sdk.promptFeedback := Undefined |}
       else inr {| Sdk.response_text := inr "";
                   Sdk.candidates := candidates;
                   Sdk.promptFeedback := Undefined |};
     fetch := fun i _ _ => stability i;
     upload := fun _ _ public_id =>
       inr {| Cloudinary.secure_url :=
                "https://res.cloudinary.com/demo/" ++ public_id ++ ".png" |};
     Date_now := now;
     JSON_stringify := fun _ => "{}";
     TypeError_message := fun _ => "Cannot read properties of undefined" |}.

(** Moderation passes and the image model draws a fox. *)
Definition fox_world (now : Z) : World :=
  world "SAFE" (Some [fox_candidate]) (fun _ => status_reply 500) now.

(** The moderation model answers [reply]. *)
Definition moderating_world (reply : string) : World :=
  world reply (Some [fox_candidate]) (fun _ => status_reply 500)
        1700000000000.

(** First key rejected with 401, second key answers with [data]. *)
Definition second_key_answers (data : js) (i : nat)
  : JsError + Fetch.Response :=
  match i with
  | O => status_reply 401
  | _ => json_reply data
  end.

(** First key answers without any image field, second key would answer
    with an image. *)
Definition first_key_without_image (i : nat) : JsError + Fetch.Response :=
  match i with
  | O => json_reply (Obj [])
  | _ => json_reply (Obj [("image", Str "aGVsbG8=")])
  end.

End Scenario.

(** ** The oldest revision: image data returned inline, no upload *)

Module InlineRoute.

Definition try_block (env : process_env.t) (w : World) (req : NextRequest)
  : M Empty_set :=
  v <- lift (req_json req) ;;
  d <- destructure w v ;;
  let prompt := prompt d in
  set_chatId (chatIdFromBody d) ;;;
  set_requestPrompt prompt ;;;
  if negb (Js.strict_eq_opt_string (sharedSecret d)
             (process_env.SHARED_SECRET env))
  then return_ (NextResponse.json
                  (Obj [("error", Str "Unauthorized request")]) (Some 401))
  else
  moderationResult <- model_generateContent w MODERATION_MODEL
                        (Arr [Str Route.moderationInstruction; prompt]) ;;
  t <- lift (Sdk.response_text moderationResult) ;;
  let moderationResponseText := JsString.trim t in
  if JsString.startsWith (JsString.toUpperCase moderationResponseText) "UNSAFE"
  then
    let reason := Route.moderation_reason moderationResponseText in
    return_ (NextResponse.json
               (Obj [("status", Str "moderated");
                     ("message", reason);
                     ("prompt", prompt);
                     ("moderationFeedback",
                      Sdk.promptFeedback moderationResult)])
               None)
  else
  imageGenResult <- model_generateContent w IMAGE_GENERATION_MODEL
                      (image_request prompt) ;;
  match Sdk.candidates imageGenResult with
  | None | Some [] =>
      return_ (NextResponse.json
                 (Obj [("status", Str "error");
                       ("message", Str "No image candidates found");
                       ("prompt", prompt);
                       ("geminiResponse",
                        Sdk.js_of_GenerateContentResponse imageGenResult)])
                 (Some 500))
  | Some (candidate0 :: _) =>
      parts <- content_parts w candidate0 ;;
      let imagePart := find is_image_part parts in
      let textPart := find is_text_part parts in
      match option_map Sdk.inlineData imagePart with
      | Some (Some inlineData) =>
          let imageData := Sdk.data inlineData in
          let mimeType := Sdk.mimeType inlineData in
          let caption :=
            match textPart with
            | Some p => Sdk.js_of_string_option (Sdk.text p)
            | None => prompt
            end in
          return_ (NextResponse.json
                     (Obj [("status", Str "success");
                           ("message", Str "Image sent to Telegram");
                           ("prompt", prompt);
                           ("generatedImage",
                            Obj [("mimeType", Str mimeType);
                                 ("data", Str imageData);
                                 ("caption", caption)]);
                           ("geminiResponse",
                            Obj [("candidates",
                                  Sdk.js_of_candidates
                                    (Sdk.candidates imageGenResult));
                                 ("promptFeedback",
                                  Sdk.promptFeedback imageGenResult)])])
                     None)
      | _ =>
          return_ (NextResponse.json
                     (Obj [("status", Str "error");
                           ("message",
                            Str "No image part found in Gemini response");
                           ("prompt", prompt);
                           ("geminiResponse",
                            Sdk.js_of_GenerateContentResponse imageGenResult)])
                     (Some 500))
      end
  end.

Definition POST (env : process_env.t) (w : World) (req : NextRequest)
  : Outcome * list Call :=
  run (try_catch (try_block env w req) catch_clause).

End InlineRoute.

(** ** The Telegram helpers

    [sendTelegramMessage] and [sendTelegramPhoto] return nothing; what they
    do is what they send and what they log.  A helper's run is the list of
    these events together with how its promise settles. *)

Module Telegram.

(** The [Response] of [fetch], as far as the helpers read it. *)
Record Response : Type := mkResponse {
  ok : bool;
  status : Z;
  statusText : string;
  text : JsError + string          (* what [response.text()] does *)
}.

(** [process.env.TELEGRAM_BOT_TOKEN], [fetch] by URL and init object, and
    [JSON.stringify]. *)
Record Host : Type := mkHost {
  TELEGRAM_BOT_TOKEN : option string;
  fetch : string -> js -> JsError + Response;
  JSON_stringify : js -> string
}.

Inductive Event : Type :=
| Fetched (url : string) (init : js)
| ConsoleError (args : list js) (thrown : option JsError).

(** A promise of [A]: rejected or fulfilled, after some events. *)
Definition T (A : Type) : Type := (JsError + A) * list Event.

Definition ret {A} (a : A) : T A := (inr a, []).

Definition bind {A B} (m : T A) (f : A -> T B) : T B :=
  match m with
  | (inr a, t) => let '(r, t') := f a in (r, (t ++ t')%list)
  | (inl e, t) => (inl e, t)
  end.

Definition try_catch {A} (m : T A) (h : JsError -> T A) : T A :=
  match m with
  | (inl e, t) => let '(r, t') := h e in (r, (t ++ t')%list)
  | other => other
  end.

Definition console_error (args : list js) (thrown : option JsError) : T unit :=
  (inr tt, [ConsoleError args thrown]).

Definition await_fetch (h : Host) (url : string) (init : js) : T Response :=
  (fetch h url init, [Fetched url init]).

Definition lift {A} (result : JsError + A) : T A := (result, []).

(** [!TELEGRAM_BOT_TOKEN] *)
Definition token_missing (h : Host) : bool :=
  match TELEGRAM_BOT_TOKEN h with
  | Some t => JsString.is_empty t
  | None => true
  end.

Definition token (h : Host) : string :=
  match TELEGRAM_BOT_TOKEN h with Some t => t | None => "" end.

(** [{ method: 'POST', headers: { 'Content-Type': 'application/json' },
       body: JSON.stringify(payload) }] *)
Definition post_init (h : Host) (payload : js) : js :=
  Obj [("method", Str "POST");
       ("headers", Obj [("Content-Type", Str "application/json")]);
       ("body", Str (JSON_stringify h payload))].

Definition sendMessage_payload (chatId : js) (text : string) : js :=
  Obj [("chat_id", chatId); ("text", Str text);
       ("parse_mode", Str "Markdown")].

Definition sendPhoto_payload (chatId : js) (imageUrl caption : string) : js :=
  Obj [("chat_id", chatId); ("photo", Str imageUrl);
       ("caption", Str caption); ("parse_mode", Str "Markdown")].

Definition sendTelegramMessage (h : Host) (chatId : js) (text : string)
  : T unit :=
  if token_missing h then
    console_error
      [Str "TELEGRAM_BOT_TOKEN is not set in sendTelegramMessage!"] None
  else
    let url := "https://api.telegram.org/bot" ++ token h ++ "/sendMessage" in
    try_catch
      (bind (await_fetch h url (post_init h (sendMessage_payload chatId text)))
         (fun response =>
            if negb (ok response) then
              bind (lift (Telegram.text response))
                (fun body =>
                   console_error
                     [Str "Telegram sendMessage API Error:";
                      Num (status response);
                      Str (statusText response);
                      Str body] None)
            else ret tt))
      (fun fetchError =>
         console_error [Str "Error fetching Telegram sendMessage:"]
                       (Some fetchError)).

Definition sendTelegramPhoto (h : Host) (chatId : js)
    (imageUrl caption : string) : T unit :=
  if token_missing h then
    console_error
      [Str "TELEGRAM_BOT_TOKEN is not set in sendTelegramPhoto!"] None
  else
    let url := "https://api.telegram.org/bot" ++ token h ++ "/sendPhoto" in
    try_catch
      (bind (await_fetch h url
               (post_init h (sendPhoto_payload chatId imageUrl caption)))
         (fun response =>
            if negb (ok response) then
              bind (lift (Telegram.text response))
                (fun body =>
                   console_error
                     [Str "Telegram sendPhoto API Error:";
                      Num (status response);
                      Str (statusText response);
                      Str body] None)
            else ret tt))
      (fun error =>
         console_error [Str "Error sending photo URL to Telegram:"]
                       (Some error)).

(** The requests a run sent, and how many times it logged. *)
Definition fetched (t : list Event) : list (string * js) :=
  flat_map (fun e => match e with
                     | Fetched url init => [(url, init)]
                     | ConsoleError _ _ => []
                     end) t.

Definition logged (t : list Event) : nat :=
  length (filter (fun e => match e with
                           | ConsoleError _ _ => true
                           | Fetched _ _ => false
                           end) t).

End Telegram.

(** ** Further vocabulary for the handlers *)

(** An error whose [response.text()], if it has one, does not throw. *)
Definition catchable (e : JsError) : bool :=
  match response_text e with
  | Some (inl _) => false
  | _ => true
  end.

(** The string holds a comma. *)
Definition has_comma (s : string) : Prop :=
  In ","%char (list_ascii_of_string s).

(** The three calls of a full run of [route.ts], in pipeline order. *)
Definition route_pipeline (w : World) (p : js) (file : string) : list Call :=
  [GenerateContent MODERATION_MODEL (Arr [Str Route.moderationInstruction; p]);
   GenerateContent IMAGE_GENERATION_MODEL (image_request p);
   CloudinaryUpload file "gemini-telegram-images" (Route.public_id w)].

(** [t] is an initial segment of [l]. *)
Fixpoint is_prefix (t l : list Call) : Prop :=
  match t, l with
  | [], _ => True
  | c :: t', d :: l' => c = d /\ is_prefix t' l'
  | _ :: _, [] => False
  end.

(** Worlds given by the answer of each collaborator. *)
Module Cases.

Definition quote (s : string) : string :=
  String "034"%char (s ++ String "034"%char "").

(** [JSON.stringify], exact on values whose strings need no escaping:
    properties holding [undefined] are omitted, [undefined] in an array is
    [null]. *)
Fixpoint stringify (v : js) : string :=
  match v with
  | Undefined | Null => "null"
  | Bool true => "true"
  | Bool false => "false"
  | Num n => JsString.of_Z n
  | Str s => quote s
  | Arr xs => "[" ++ Js.join_comma (map stringify xs) ++ "]"
  | Obj fields =>
      "{" ++ Js.join_comma
               (flat_map (fun kv =>
                            match kv with
                            | (_, Undefined) => []
                            | (k, x) => [quote k ++ ":" ++ stringify x]
                            end) fields)
          ++ "}"
  end.

Definition world (moderation image : JsError + Sdk.GenerateContentResponse)
    (stability : nat -> JsError + Fetch.Response)
    (uploaded : JsError + Cloudinary.UploadApiResponse) : World :=
  {| generateContent := fun model _ =>
       if String.eqb model MODERATION_MODEL then moderation else image;
     fetch := fun i _ _ => stability i;
     upload := fun _ _ _ => uploaded;
     Date_now := 1700000000000;
     JSON_stringify := stringify;
     TypeError_message := fun _ => "Cannot read properties of undefined" |}.

Definition verdict (t : string) : JsError + Sdk.GenerateContentResponse :=
  inr {| Sdk.response_text := inr t;
         Sdk.candidates := None;
         Sdk.promptFeedback := Undefined |}.

Definition drawn (cs : option (list Sdk.Candidate))
  : JsError + Sdk.GenerateContentResponse :=
  inr {| Sdk.response_text := inr "";
         Sdk.candidates := cs;
         Sdk.promptFeedback := Undefined |}.

Definition stored (url : string) : JsError + Cloudinary.UploadApiResponse :=
  inr {| Cloudinary.secure_url := url |}.

Definition no_keys : process_env.t :=
  {| process_env.SHARED_SECRET := Some "s3cret";
     process_env.STABILITY_KEYS := Some "";
     process_env.STABILITY_KEY := Some "legacy-key" |}.

Definition three_keys : process_env.t :=
  {| process_env.SHARED_SECRET := Some "s3cret";
     process_env.STABILITY_KEYS := Some " key-one ,key-two,, key-three";
     process_env.STABILITY_KEY := None |}.

(** First key refused, second key answers without any image field, third
    key would answer with an image. *)
Definition second_key_without_image (i : nat) : JsError + Fetch.Response :=
  match i with
  | O => Scenario.status_reply 500
  | S O => Scenario.json_reply (Obj [])
  | _ => Scenario.json_reply (Obj [("image", Str "aGVsbG8=")])
  end.

(** A candidate that answers in words only. *)
Definition refusal_candidate : Sdk.Candidate :=
  Scenario.candidate_of
    [ {| Sdk.text := Some "I cannot draw that."; Sdk.inlineData := None |} ].

(** A candidate whose image part holds no data. *)
Definition blank_candidate : Sdk.Candidate :=
  Scenario.candidate_of
    [ {| Sdk.text := None;
         Sdk.inlineData :=
           Some {| Sdk.mimeType := "image/png"; Sdk.data := "" |} |} ].

(** A candidate stopped before it had any content. *)
Definition bare_candidate : Sdk.Candidate := {| Sdk.content := None |}.

(** An SDK error whose [response.text()] throws in turn. *)
Definition blocked : JsError :=
  mkJsError (Str "Response was blocked")
            (Some (inl (Error "Text not available")))
            (Str "{}").

Definition telegram (token : option string)
    (answer : JsError + Telegram.Response) : Telegram.Host :=
  {| Telegram.TELEGRAM_BOT_TOKEN := token;
     Telegram.fetch := fun _ _ => answer;
     Telegram.JSON_stringify := stringify |}.

End Cases.

(** ** Strings and numbers *)

Lemma of_Z_inj (a b : Z) : JsString.of_Z a = JsString.of_Z b -> a = b.
Proof.
  unfold JsString.of_Z. intros H.
  apply DecimalZ.to_int_inj.
  assert (E : Some (Z.to_int a) = Some (Z.to_int b)).
  { rewrite <- !NilEmpty.isi. now rewrite H. }
  now injection E.
Qed.

Lemma append_inj_l (p a b : string) : p ++ a = p ++ b -> a = b.
Proof.
  induction p as [|c p IH]; simpl; intros H; [exact H|].
  injection H as H. auto.
Qed.

Lemma upper_char_E (c : ascii) :
  JsString.upper_char c = "E"%char -> c = "E"%char \/ c = "e"%char.
Proof.
  destruct c as [[] [] [] [] [] [] [] []]; vm_compute; intros H;
    first [discriminate H | now left | now right].
Qed.

Lemma trimEnd_keeps_head (c : ascii) (r : string) :
  JsString.is_white_space c = false ->
  exists r', JsString.trimEnd (String c r) = String c r'.
Proof.
  intros H. simpl. destruct (JsString.trimEnd r); rewrite ?H; eauto.
Qed.

Lemma startsWith_UNSAFE (t : string) :
  JsString.startsWith (JsString.toUpperCase t) "UNSAFE" = true ->
  exists c r, JsString.substring_from 5 t = String c r
              /\ JsString.upper_char c = "E"%char.
Proof.
  destruct t as [|c1 [|c2 [|c3 [|c4 [|c5 [|c6 r]]]]]]; simpl;
    rewrite ?andb_false_r; try discriminate.
  intros H. repeat (apply andb_prop in H; destruct H as [? H]).
  exists c6, r. split; [reflexivity|].
  symmetry. now apply Ascii.eqb_eq.
Qed.

Lemma moderation_reason_keeps_token_tail (t : string) :
  JsString.startsWith (JsString.toUpperCase t) "UNSAFE" = true ->
  exists c r, Route.moderation_reason t = Str (String c r)
              /\ (c = "E"%char \/ c = "e"%char).
Proof.
  intros H. destruct (startsWith_UNSAFE t H) as (c & r & E & U).
  apply upper_char_E in U.
  assert (W : JsString.is_white_space c = false)
    by (destruct U; subst c; reflexivity).
  unfold Route.moderation_reason, JsString.trim. rewrite E.
  simpl JsString.trimStart. rewrite W.
  destruct (trimEnd_keeps_head c r W) as [r' ->].
  exists c, r'. split; [reflexivity | exact U].
Qed.

(** ** The stages, as equations *)

Lemma Route_upload_image_eq w p mimeType imageData s :
  Route.upload_image w p mimeType imageData s =
  (match upload w ("data:" ++ mimeType ++ ";base64," ++ imageData)
                 "gemini-telegram-images" (Route.public_id w) with
   | inr r => Normal (Cloudinary.secure_url r)
   | inl e =>
       Return (NextResponse.json
                 (Obj [("status", Str "error");
                       ("message", Str "Failed to upload image to cloud storage");
                       ("prompt", p);
                       ("cloudinaryError", message e)])
                 (Some 500))
   end, s,
   [CloudinaryUpload ("data:" ++ mimeType ++ ";base64," ++ imageData)
                     "gemini-telegram-images" (Route.public_id w)]).
Proof.
  unfold Route.upload_image, try_catch, bind, uploader_upload, await.
  destruct (upload w _ _ _); reflexivity.
Qed.

Lemma StabilityRoute_upload_image_eq w p mimeType b s :
  StabilityRoute.upload_image w p mimeType b s =
  match Js.to_string b with
  | Some image =>
      (match upload w ("data:" ++ mimeType ++ ";base64," ++ image)
                    "gemini-telegram-images" (StabilityRoute.public_id w) with
       | inr r => Normal (Cloudinary.secure_url r)
       | inl e =>
           Return (NextResponse.json
                     (Obj [("status", Str "error");
                           ("message",
                            Str "Failed to upload image to cloud storage");
                           ("prompt", p);
                           ("cloudinaryError", message e)])
                     (Some 500))
       end, s,
       [CloudinaryUpload ("data:" ++ mimeType ++ ";base64," ++ image)
                         "gemini-telegram-images" (StabilityRoute.public_id w)])
  | None =>
      (Return (NextResponse.json
                 (Obj [("status", Str "error");
                       ("message", Str "Failed to upload image to cloud storage");
                       ("prompt", p);
                       ("cloudinaryError",
                        Str (TypeError_message w ToPrimitive))])
                 (Some 500)), s, [])
  end.
Proof.
  unfold StabilityRoute.upload_image, template_value, try_catch, bind,
    uploader_upload, await.
  destruct (Js.to_string b) as [image|]; [|reflexivity].
  cbn. destruct (upload w _ _ _); reflexivity.
Qed.

(** [generateWithStability] makes exactly one call, leaves the locals
    alone, never [return]s from the handler, and throws or returns as
    [Attempt.attempt] says. *)
Lemma generateWithStability_attempt w i p key s :
  exists c,
    StabilityRoute.generateWithStability w i p key s
    = (c, s, [StabilityFetch i key p])
    /\ match Attempt.attempt (fetch w i key p) with
       | None => exists e, c = Throw e
       | Some b =>
           exists data,
             c = Normal {| StabilityRoute.base64 := b;
                           StabilityRoute.raw := data |}
       end.
Proof.
  unfold StabilityRoute.generateWithStability, Attempt.attempt, bind, await.
  destruct (fetch w i key p) as [e|res]; [eauto|].
  destruct (Fetch.ok res); cbn.
  - unfold lift. destruct (Fetch.json res) as [e|data]; cbn; [eauto|].
    destruct (Js.nullish data); cbn; eauto.
  - unfold try_catch, lift, bind.
    destruct (Fetch.json res) as [e|data]; cbn; [|eauto].
    destruct (Fetch.text res); cbn; eauto.
Qed.

(** One turn of the [for] loop. *)
Lemma try_keys_cons w p i key rest s :
  StabilityRoute.try_keys w p i (key :: rest) s =
  match Attempt.attempt (fetch w i key p) with
  | Some b => (Normal b, s, [StabilityFetch i key p])
  | None =>
      let '(c, s', t) := StabilityRoute.try_keys w p (S i) rest s in
      (c, s', StabilityFetch i key p :: t)
  end.
Proof.
  cbn [StabilityRoute.try_keys]. unfold bind at 1. unfold try_catch.
  unfold bind at 1.
  destruct (generateWithStability_attempt w i p key s) as (c & -> & Hc).
  destruct (Attempt.attempt (fetch w i key p)) as [b|].
  - destruct Hc as [data ->]. reflexivity.
  - destruct Hc as [e ->]. cbn.
    destruct (StabilityRoute.try_keys w p (S i) rest s) as [[c' s'] t'].
    reflexivity.
Qed.

Lemma try_keys_nil w p i s :
  StabilityRoute.try_keys w p i [] s = (Normal Undefined, s, []).
Proof. reflexivity. Qed.

(** The loop never [return]s from the handler and never throws. *)
Lemma try_keys_normal w p keys : forall i s,
  exists b t, StabilityRoute.try_keys w p i keys s = (Normal b, s, t).
Proof.
  induction keys as [|key rest IH]; intros i s.
  - eauto using try_keys_nil.
  - rewrite try_keys_cons.
    destruct (Attempt.attempt (fetch w i key p)); [eauto|].
    destruct (IH (S i) s) as (b & t & ->). eauto.
Qed.

(** Keys whose attempts throw are all tried; the first attempt that
    returns ends the loop with its [base64], whatever that is. *)
Lemma try_keys_throw_then_return w p before key b rest : forall i s,
  (forall j k, nth_error before j = Some k ->
               Attempt.attempt (fetch w (i + j) k p) = None) ->
  Attempt.attempt (fetch w (i + length before) key p) = Some b ->
  StabilityRoute.try_keys w p i (before ++ key :: rest) s
  = (Normal b, s, stability_calls p i (before ++ [key])).
Proof.
  induction before as [|k0 before IH]; intros i s Hthrow Hret.
  - cbn [app length] in *. rewrite Nat.add_0_r in Hret.
    rewrite try_keys_cons, Hret. reflexivity.
  - cbn [app]. rewrite try_keys_cons.
    rewrite <- (Nat.add_0_r i) at 1.
    rewrite (Hthrow 0%nat k0 eq_refl).
    rewrite (IH (S i) s).
    + reflexivity.
    + intros j k Hj. rewrite Nat.add_succ_comm. apply Hthrow. exact Hj.
    + rewrite Nat.add_succ_comm. exact Hret.
Qed.

(** When every attempt fails, the loop ends without an image and has only
    called the Stability endpoint. *)
Lemma try_keys_all_fail w p keys : forall i s,
  (forall j k, nth_error keys j = Some k ->
               Attempt.fails (fetch w (i + j) k p) = true) ->
  exists b t,
    StabilityRoute.try_keys w p i keys s = (Normal b, s, t)
    /\ Js.truthy b = false
    /\ forallb is_stability_call t = true.
Proof.
  induction keys as [|key rest IH]; intros i s Hfail.
  - exists Undefined, []. auto.
  - rewrite try_keys_cons.
    pose proof (Hfail 0%nat key eq_refl) as H0.
    rewrite Nat.add_0_r in H0. unfold Attempt.fails in H0.
    destruct (Attempt.attempt (fetch w i key p)) as [b|].
    + exists b, [StabilityFetch i key p].
      repeat split. now apply negb_true_iff.
    + destruct (IH (S i) s) as (b & t & -> & Hb & Ht).
      { intros j k Hj. rewrite Nat.add_succ_comm. apply Hfail. exact Hj. }
      exists b, (StabilityFetch i key p :: t). auto.
Qed.

(** ** The handlers *)

#[local] Arguments Route.upload_image : simpl never.
#[local] Arguments StabilityRoute.upload_image : simpl never.
#[local] Arguments StabilityRoute.stability_block : simpl never.
#[local] Arguments StabilityRoute.try_keys : simpl never.

(** Case analysis on the next collaborator answer or test the handler
    branches on. *)
Ltac branch :=
  match goal with
  | |- context [content_parts _ _] => unfold content_parts
  | |- context [Route.upload_image _ _ _ _ _] =>
      rewrite Route_upload_image_eq
  | |- context [StabilityRoute.upload_image _ _ _ _ _] =>
      rewrite StabilityRoute_upload_image_eq
  | |- context [match ?x with _ => _ end] =>
      lazymatch x with
      | context [match _ with _ => _ end] => fail
      | _ => destruct x eqn:?
      end
  | |- context [if ?x then _ else _] =>
      lazymatch x with
      | context [if _ then _ else _] => fail
      | context [match _ with _ => _ end] => fail
      | _ => destruct x eqn:?
      end
  end; cbn in *.

Ltac run_handler :=
  unfold Route.POST, Route.try_block, StabilityRoute.POST,
    StabilityRoute.try_block, run, try_catch, bind; cbn;
  unfold destructure.

(** A candidate with an image part has content, and its content has
    parts. *)
Lemma content_of_image_part c part :
  find is_image_part (Sdk.parts c) = Some part ->
  Sdk.content c = Some {| Sdk.Content.parts := Some (Sdk.parts c) |}.
Proof.
  unfold Sdk.parts.
  destruct (Sdk.content c) as [[[ps|]]|]; [reflexivity|discriminate..].
Qed.

(** C1.  A request whose body destructures and whose [sharedSecret] is not
    strictly equal to [SHARED_SECRET] is answered with exactly
    [{ error: 'Unauthorized request' }] and status 401, and the handler makes
    no external call at all: no moderation, no image generation, no
    upload. *)
Theorem unauthorized_is_401 env w v :
  Js.nullish v = false ->
  Js.strict_eq_opt_string (Js.get v "sharedSecret")
    (process_env.SHARED_SECRET env) = false ->
  Route.POST env w (JsonBody v) =
  (Responded {| status := 401;
                body := Obj [("error", Str "Unauthorized request")] |},
   []).
Proof.
  intros Hn Hs. run_handler. rewrite Hn. cbn. rewrite Hs. reflexivity.
Qed.

Lemma unauthorized_is_401_witness :
  Route.POST Scenario.env (Scenario.fox_world 1700000000000)
    (Scenario.request "a cat" "guess" "user-7") =
  (Responded {| status := 401;
                body := Obj [("error", Str "Unauthorized request")] |},
   []).
Proof. apply unauthorized_is_401; reflexivity. Defined.

(** The same authorization check in the revision with the credential chain. *)
Lemma StabilityRoute_unauthorized_is_401 env w v :
  Js.nullish v = false ->
  Js.strict_eq_opt_string (Js.get v "sharedSecret")
    (process_env.SHARED_SECRET env) = false ->
  StabilityRoute.POST env w (JsonBody v) =
  (Responded {| status := 401;
                body := Obj [("error", Str "Unauthorized request")] |},
   []).
Proof.
  intros Hn Hs. run_handler. rewrite Hn. cbn. rewrite Hs. reflexivity.
Qed.

(** An [UNSAFE] verdict ends the request after the moderation call alone,
    with status 200 and [status: 'moderated']. *)
Lemma Route_moderated env w v g t :
  Js.nullish v = false ->
  Js.strict_eq_opt_string (Js.get v "sharedSecret")
    (process_env.SHARED_SECRET env) = true ->
  generateContent w MODERATION_MODEL
    (Arr [Str Route.moderationInstruction; Js.get v "prompt"]) = inr g ->
  Sdk.response_text g = inr t ->
  JsString.startsWith (JsString.toUpperCase (JsString.trim t)) "UNSAFE"
  = true ->
  Route.POST env w (JsonBody v) =
  (Responded {| status := 200;
                body := Obj [("status", Str "moderated");
                             ("message",
                              Route.moderation_reason (JsString.trim t));
                             ("prompt", Js.get v "prompt");
                             ("moderationFeedback", Sdk.promptFeedback g)] |},
   [GenerateContent MODERATION_MODEL
      (Arr [Str Route.moderationInstruction; Js.get v "prompt"])]).
Proof.
  intros Hn Hs Hg Ht Hu. run_handler. rewrite Hn. cbn. rewrite Hs. cbn.
  unfold model_generateContent, await. rewrite Hg. cbn.
  unfold lift. rewrite Ht. cbn. rewrite Hu. reflexivity.
Qed.

(** Whatever follows the [UNSAFE] token, the message starts with the
    token's last letter: the generic default is never the message. *)
Lemma moderated_message_never_default env w v g t :
  Js.nullish v = false ->
  Js.strict_eq_opt_string (Js.get v "sharedSecret")
    (process_env.SHARED_SECRET env) = true ->
  generateContent w MODERATION_MODEL
    (Arr [Str Route.moderationInstruction; Js.get v "prompt"]) = inr g ->
  Sdk.response_text g = inr t ->
  JsString.startsWith (JsString.toUpperCase (JsString.trim t)) "UNSAFE"
  = true ->
  exists r c rest,
    fst (Route.POST env w (JsonBody v)) = Responded r
    /\ status r = 200
    /\ Js.get (body r) "message" = Str (String c rest)
    /\ (c = "E"%char \/ c = "e"%char).
Proof.
  intros Hn Hs Hg Ht Hu.
  rewrite (Route_moderated env w v g t Hn Hs Hg Ht Hu).
  destruct (moderation_reason_keeps_token_tail _ Hu) as (c & rest & E & Hc).
  eexists _, c, rest. split; [reflexivity|]. cbn. auto.
Qed.

(** C9.  When the body is not valid JSON, [req.json()] throws before the
    authorization check; the outer [catch] answers with status 500,
    [status: 'error'] and [prompt: ''] (the initial [requestPrompt]),
    whatever the configured secret is, and no external call is made.  The
    handler neither rejects nor answers 401. *)
Theorem invalid_json_is_500 env w msg :
  Route.POST env w (InvalidJson msg) =
  (Responded {| status := 500;
                body := Obj [("status", Str "error");
                             ("message",
                              Js.or (Str msg) (Str "Internal server error"));
                             ("prompt", Str "");
                             ("details", Str "{}")] |},
   []).
Proof. reflexivity. Qed.

(** C10.  Two bodies that agree on [prompt], [chatId] and [sharedSecret]
    (and are both destructurable or both not) get the same response and
    make the same external calls in the same world: [userId] is
    destructured and never read. *)
Theorem userId_is_not_read env w v1 v2 :
  Js.nullish v1 = Js.nullish v2 ->
  Js.get v1 "prompt" = Js.get v2 "prompt" ->
  Js.get v1 "chatId" = Js.get v2 "chatId" ->
  Js.get v1 "sharedSecret" = Js.get v2 "sharedSecret" ->
  Route.POST env w (JsonBody v1) = Route.POST env w (JsonBody v2).
Proof.
  intros Hn Hp Hc Hs. run_handler.
  rewrite Hn. destruct (Js.nullish v2); [reflexivity|]. cbn.
  rewrite !Hp, !Hc, !Hs. reflexivity.
Qed.

(** C7, as amended.  Every response the handler returns, other than the
    401 authorization failure, has a [prompt] property holding the
    request's prompt; it holds the empty string when the body could not be
    decoded or destructured. *)
Theorem prompt_echoed_except_401 env w req r :
  responded (Route.POST env w req) = Some r ->
  status r <> 401 ->
  has_field (body r) "prompt" = true
  /\ Js.get (body r) "prompt" = requestPrompt_of req.
Proof.
  unfold responded. run_handler.
  destruct req as [msg|v]; cbn.
  - intros [= <-] _. cbn. auto.
  - destruct (Js.nullish v) eqn:Hn; cbn.
    + intros [= <-] _. cbn. auto.
    + unfold model_generateContent, await, lift.
      repeat branch;
        first [ discriminate | intros [= <-]; cbn; intros; auto; congruence ].
Qed.

Lemma Route_success_uploads_once env w req :
  succeeded (Route.POST env w req) ->
  upload_ids (snd (Route.POST env w req)) = [Route.public_id w].
Proof.
  unfold succeeded, responded. run_handler.
  destruct req as [msg|v]; cbn.
  - intros (r & [= <-] & H). discriminate H.
  - destruct (Js.nullish v) eqn:Hn; cbn.
    + intros (r & [= <-] & H). discriminate H.
    + unfold model_generateContent, await, lift.
      repeat branch; intros (r & E & H);
        first [ discriminate E
              | injection E as <-; first [discriminate H | reflexivity] ].
Qed.

Lemma Route_public_id_inj w1 w2 :
  Route.public_id w1 = Route.public_id w2 <-> Date_now w1 = Date_now w2.
Proof.
  unfold Route.public_id. split.
  - intros H. apply append_inj_l in H. now apply of_Z_inj.
  - now intros ->.
Qed.

(** A successful request hands the uploader exactly one [public_id],
    [gemini-gen-] followed by the clock reading: the identifiers of two
    successful requests differ exactly when the two clock readings
    differ, whatever the prompts. *)
Lemma public_ids_differ_iff_clock_differs env w1 w2 req1 req2 :
  succeeded (Route.POST env w1 req1) ->
  succeeded (Route.POST env w2 req2) ->
  upload_ids (snd (Route.POST env w1 req1)) = [Route.public_id w1]
  /\ upload_ids (snd (Route.POST env w2 req2)) = [Route.public_id w2]
  /\ (Route.public_id w1 <> Route.public_id w2
      <-> Date_now w1 <> Date_now w2).
Proof.
  intros H1 H2. repeat split.
  - now apply Route_success_uploads_once.
  - now apply Route_success_uploads_once.
  - intros H E. apply H. now apply Route_public_id_inj.
  - intros H E. apply H. now apply Route_public_id_inj.
Qed.

(** C6.  When moderation passes (the reply, ASCII text, does not begin
    with UNSAFE) and the image model's first candidate carries an
    [image/png] part and the caption ["a red fox"], the uploader is called
    exactly once, with the image data prefixed by [data:image/png;base64,];
    every success response then has [generatedImage.caption = "a red fox"],
    and a success response is what the handler returns once the uploader
    yields a non-empty URL. *)
Theorem png_fox_round_trip env w v gm t gi candidate0 others part inlineData :
  Js.nullish v = false ->
  Js.strict_eq_opt_string (Js.get v "sharedSecret")
    (process_env.SHARED_SECRET env) = true ->
  generateContent w MODERATION_MODEL
    (Arr [Str Route.moderationInstruction; Js.get v "prompt"]) = inr gm ->
  Sdk.response_text gm = inr t ->
  JsString.is_ascii t = true ->
  JsString.startsWith (JsString.toUpperCase (JsString.trim t)) "UNSAFE"
  = false ->
  generateContent w IMAGE_GENERATION_MODEL (image_request (Js.get v "prompt"))
  = inr gi ->
  Sdk.candidates gi = Some (candidate0 :: others) ->
  find is_image_part (Sdk.parts candidate0) = Some part ->
  Sdk.inlineData part = Some inlineData ->
  Sdk.mimeType inlineData = "image/png" ->
  match find is_text_part (Sdk.parts candidate0) with
  | Some p => Sdk.js_of_string_option (Sdk.text p)
  | None => Js.get v "prompt"
  end = Str "a red fox" ->
  let o := Route.POST env w (JsonBody v) in
  let file := "data:image/png;base64," ++ Sdk.data inlineData in
  filter is_upload_call (snd o)
  = [CloudinaryUpload file "gemini-telegram-images" (Route.public_id w)]
  /\ (forall r, responded o = Some r ->
                Js.get (body r) "status" = Str "success" ->
                Js.get (Js.get (body r) "generatedImage") "caption"
                = Str "a red fox")
  /\ (forall u, upload w file "gemini-telegram-images" (Route.public_id w)
                = inr u ->
                JsString.is_empty (Cloudinary.secure_url u) = false ->
                succeeded o).
Proof.
  intros Hn Hs Hgm Ht _ Hu Hgi Hc Hp Hi Hm Hcap o file. subst o file.
  pose proof (content_of_image_part _ _ Hp) as Hparts.
  unfold succeeded, responded. run_handler. rewrite Hn. cbn. rewrite Hs. cbn.
  unfold model_generateContent, content_parts, await, lift.
  rewrite Hgm. cbn. rewrite Ht. cbn. rewrite Hu. cbn.
  rewrite Hgi. cbn. rewrite Hc. cbn. rewrite Hparts. cbn.
  rewrite Hp. cbn. rewrite Hi. cbn.
  rewrite Route_upload_image_eq, Hm, Hcap. cbn.
  destruct (upload w _ _ _) as [e|u] eqn:Hup; cbn.
  - repeat split.
    + intros r [= <-]. discriminate.
    + discriminate.
  - destruct (JsString.is_empty (Cloudinary.secure_url u)) eqn:He; cbn.
    + repeat split.
      * intros r [= <-]. discriminate.
      * intros u' [= <-]. congruence.
    + repeat split.
      * intros r [= <-] _. reflexivity.
      * intros u' _ _. eexists. split; reflexivity.
Qed.

Lemma stability_block_eq w p keys s :
  StabilityRoute.stability_block w p keys s
  = StabilityRoute.try_keys w p 0 keys s.
Proof. destruct keys; reflexivity. Qed.

Lemma stability_keys_tried_calls p keys : forall i,
  stability_keys_tried (stability_calls p i keys) = keys.
Proof.
  induction keys as [|k keys IH]; intros i; cbn; [reflexivity|].
  now rewrite IH.
Qed.

Lemma stability_keys_tried_app t1 t2 :
  stability_keys_tried (t1 ++ t2)
  = (stability_keys_tried t1 ++ stability_keys_tried t2)%list.
Proof. apply flat_map_app. Qed.

Lemma stability_calls_no_image_model p keys : forall i,
  existsb is_image_model_call (stability_calls p i keys) = false.
Proof.
  induction keys as [|k keys IH]; intros i; cbn; [reflexivity|]. apply IH.
Qed.

Lemma non_success_status_throws a :
  Attempt.non_success_status a = true -> Attempt.attempt a = None.
Proof.
  destruct a as [e|res]; cbn; [discriminate|]. now intros ->.
Qed.

Lemma malformed_payload_throws a :
  Attempt.malformed_payload a = true -> Attempt.attempt a = None.
Proof.
  destruct a as [e|res]; cbn; [discriminate|].
  destruct (Fetch.ok res); cbn; [|discriminate].
  now destruct (Fetch.json res).
Qed.

Lemma missing_image_returns a :
  Attempt.missing_image a = true ->
  exists b, Attempt.attempt a = Some b /\ Js.truthy b = false.
Proof.
  destruct a as [e|res]; cbn; [discriminate|].
  destruct (Fetch.ok res); cbn; [|discriminate].
  destruct (Fetch.json res) as [e|data]; [discriminate|].
  destruct (Js.nullish data); cbn; [discriminate|].
  intros H. apply negb_true_iff in H. eauto.
Qed.

(** A non-success status or a malformed payload moves the loop on to the
    next key. *)
Lemma thrown_failure_tries_next_key w p i key rest s :
  Attempt.non_success_status (fetch w i key p)
  || Attempt.malformed_payload (fetch w i key p) = true ->
  StabilityRoute.try_keys w p i (key :: rest) s =
  let '(c, s', t) := StabilityRoute.try_keys w p (S i) rest s in
  (c, s', StabilityFetch i key p :: t).
Proof.
  intros H. rewrite try_keys_cons.
  apply orb_prop in H as [H|H];
    [apply non_success_status_throws in H
    |apply malformed_payload_throws in H]; now rewrite H.
Qed.

(** An answer without an image ends the loop: the keys after it are not
    tried. *)
Lemma missing_image_ends_loop w p i key rest s :
  Attempt.missing_image (fetch w i key p) = true ->
  exists b, Js.truthy b = false
            /\ StabilityRoute.try_keys w p i (key :: rest) s
               = (Normal b, s, [StabilityFetch i key p]).
Proof.
  intros H. apply missing_image_returns in H as (b & E & Hb).
  exists b. split; [exact Hb|]. now rewrite try_keys_cons, E.
Qed.

Lemma stability_calls_only_no_upload t :
  forallb is_stability_call t = true -> existsb is_upload_call t = false.
Proof.
  induction t as [|c t IH]; cbn; [reflexivity|].
  intros H. apply andb_prop in H as [Hc Ht].
  rewrite (IH Ht). now destruct c.
Qed.

(** C5.  When every Stability attempt fails (throws, or returns without a
    usable image) and the Gemini image model answers with an absent or
    empty candidate list, the response has status 500, [status: 'error'],
    no [imageUrl] property, and no upload was attempted. *)
Theorem exhausted_providers_answer_500 env w v g :
  Js.nullish v = false ->
  Js.strict_eq_opt_string (Js.get v "sharedSecret")
    (process_env.SHARED_SECRET env) = true ->
  (forall j k, nth_error (StabilityRoute.STABILITY_KEYS env) j = Some k ->
               Attempt.fails (fetch w j k (Js.get v "prompt")) = true) ->
  generateContent w IMAGE_GENERATION_MODEL (image_request (Js.get v "prompt"))
  = inr g ->
  Sdk.candidates g = None \/ Sdk.candidates g = Some [] ->
  exists r t,
    StabilityRoute.POST env w (JsonBody v) = (Responded r, t)
    /\ status r = 500
    /\ Js.get (body r) "status" = Str "error"
    /\ Js.get (body r) "message" = Str "No image candidates found"
    /\ has_field (body r) "imageUrl" = false
    /\ existsb is_upload_call t = false.
Proof.
  intros Hn Hs Hfail Hg Hc.
  destruct (try_keys_all_fail w (Js.get v "prompt")
              (StabilityRoute.STABILITY_KEYS env) 0
              {| chatId := Js.get v "chatId";
                 requestPrompt := Js.get v "prompt" |} Hfail)
    as (b & t & Ek & Hb & Ht).
  run_handler. rewrite Hn. cbn. rewrite Hs. cbn.
  rewrite stability_block_eq, Ek. cbn. rewrite Hb. cbn.
  unfold model_generateContent, await. rewrite Hg. cbn.
  destruct Hc as [-> | ->]; cbn;
    (do 2 eexists; split; [reflexivity|]; cbn; repeat split;
     rewrite existsb_app, (stability_calls_only_no_upload t Ht);
     reflexivity).
Qed.

(** The same exhaustion in [route.ts], which has no primary provider. *)
Lemma Route_no_candidates_answer_500 env w v gm t gi :
  Js.nullish v = false ->
  Js.strict_eq_opt_string (Js.get v "sharedSecret")
    (process_env.SHARED_SECRET env) = true ->
  generateContent w MODERATION_MODEL
    (Arr [Str Route.moderationInstruction; Js.get v "prompt"]) = inr gm ->
  Sdk.response_text gm = inr t ->
  JsString.startsWith (JsString.toUpperCase (JsString.trim t)) "UNSAFE"
  = false ->
  generateContent w IMAGE_GENERATION_MODEL (image_request (Js.get v "prompt"))
  = inr gi ->
  Sdk.candidates gi = None \/ Sdk.candidates gi = Some [] ->
  exists r tr,
    Route.POST env w (JsonBody v) = (Responded r, tr)
    /\ status r = 500
    /\ Js.get (body r) "status" = Str "error"
    /\ has_field (body r) "imageUrl" = false
    /\ existsb is_upload_call tr = false.
Proof.
  intros Hn Hs Hgm Ht Hu Hgi Hc.
  run_handler. rewrite Hn. cbn. rewrite Hs. cbn.
  unfold model_generateContent, await, lift.
  rewrite Hgm. cbn. rewrite Ht. cbn. rewrite Hu. cbn. rewrite Hgi. cbn.
  destruct Hc as [-> | ->]; cbn;
    (do 2 eexists; split; [reflexivity|]; cbn; repeat split).
Qed.

(** ** Concrete runs *)

Lemma userId_is_not_read_witness :
  Route.POST Scenario.env (Scenario.fox_world 1700000000000)
    (Scenario.request "a cat" "s3cret" "user-7")
  = Route.POST Scenario.env (Scenario.fox_world 1700000000000)
      (Scenario.request "a cat" "s3cret" "user-8").
Proof. apply userId_is_not_read; reflexivity. Defined.

(** C7 as stated fails: the 401 response has no [prompt] property. *)
Lemma unauthorized_response_has_no_prompt :
  exists r,
    responded (Route.POST Scenario.env (Scenario.fox_world 1700000000000)
                 (Scenario.request "a cat" "guess" "user-7")) = Some r
    /\ has_field (body r) "prompt" = false
    /\ Js.get (body r) "prompt" <> Str "a cat".
Proof.
  eexists. split; [reflexivity|]. split; [reflexivity|]. discriminate.
Qed.

Lemma prompt_echoed_except_401_witness :
  has_field
    (Obj [("status", Str "moderated"); ("message", Str "E violence");
          ("prompt", Str "a cat"); ("moderationFeedback", Undefined)])
    "prompt" = true
  /\ Js.get
       (Obj [("status", Str "moderated"); ("message", Str "E violence");
             ("prompt", Str "a cat"); ("moderationFeedback", Undefined)])
       "prompt"
     = requestPrompt_of (Scenario.request "a cat" "s3cret" "user-7").
Proof.
  apply (prompt_echoed_except_401 Scenario.env
           (Scenario.moderating_world "UNSAFE violence")
           (Scenario.request "a cat" "s3cret" "user-7")
           {| status := 200;
              body := Obj [("status", Str "moderated");
                           ("message", Str "E violence");
                           ("prompt", Str "a cat");
                           ("moderationFeedback", Undefined)] |}).
  - reflexivity.
  - simpl. lia.
Defined.

(** C8, at its failing input.  Two successful requests whose uploads read
    the same millisecond from the clock hand the uploader the same
    [public_id], which the source means to be unique. *)
Theorem same_millisecond_same_public_id :
  let first := Route.POST Scenario.env (Scenario.fox_world 1700000000000)
                 (Scenario.request "a cat" "s3cret" "user-7") in
  let second := Route.POST Scenario.env (Scenario.fox_world 1700000000000)
                  (Scenario.request "a cat" "s3cret" "user-7") in
  succeeded first /\ succeeded second
  /\ upload_ids (snd first) = ["gemini-gen-1700000000000"]
  /\ upload_ids (snd second) = ["gemini-gen-1700000000000"].
Proof.
  cbv zeta. repeat split; try (eexists; split; reflexivity); reflexivity.
Qed.

(** C2, at its failing inputs.  For the moderation reply ["UNSAFE"] the
    message is ["E"], not the generic ["Content deemed unsafe."]; for
    ["unsafe: depicts violence"] it is ["e: depicts violence"]:
    [substring(5)] cuts one code unit short of the six-letter token. *)
Theorem moderation_reason_keeps_E :
  fst (Route.POST Scenario.env (Scenario.moderating_world "UNSAFE")
         (Scenario.request "a cat" "s3cret" "user-7"))
  = Responded {| status := 200;
                 body := Obj [("status", Str "moderated");
                              ("message", Str "E");
                              ("prompt", Str "a cat");
                              ("moderationFeedback", Undefined)] |}
  /\ fst (Route.POST Scenario.env
            (Scenario.moderating_world "unsafe: depicts violence")
            (Scenario.request "a cat" "s3cret" "user-7"))
     = Responded {| status := 200;
                    body := Obj [("status", Str "moderated");
                                 ("message", Str "e: depicts violence");
                                 ("prompt", Str "a cat");
                                 ("moderationFeedback", Undefined)] |}.
Proof. split; reflexivity. Qed.

Lemma png_fox_round_trip_witness :
  filter is_upload_call
    (snd (Route.POST Scenario.env (Scenario.fox_world 1700000000000)
            (Scenario.request "a cat" "s3cret" "user-7")))
  = [CloudinaryUpload "data:image/png;base64,iVBORw0KGgo="
       "gemini-telegram-images" "gemini-gen-1700000000000"].
Proof.
  refine (proj1 (png_fox_round_trip Scenario.env
                   (Scenario.fox_world 1700000000000)
                   (Scenario.json_body "a cat" "s3cret" "user-7")
                   {| Sdk.response_text := inr "SAFE";
                      Sdk.candidates := None;
                      Sdk.promptFeedback := Undefined |}
                   "SAFE"
                   {| Sdk.response_text := inr "";
                      Sdk.candidates := Some [Scenario.fox_candidate];
                      Sdk.promptFeedback := Undefined |}
                   Scenario.fox_candidate []
                   {| Sdk.text := None;
                      Sdk.inlineData :=
                        Some {| Sdk.mimeType := "image/png";
                                Sdk.data := "iVBORw0KGgo=" |} |}
                   {| Sdk.mimeType := "image/png";
                      Sdk.data := "iVBORw0KGgo=" |}
                   _ _ _ _ _ _ _ _ _ _ _ _)); reflexivity.
Defined.

(** C4, at its failing input.  With two keys, when the first attempt
    answers 200 without any image field, the loop stops: the second key,
    which would have returned an image, is never tried, and the handler
    goes straight to the Gemini image model. *)
Theorem missing_image_skips_remaining_keys :
  let w := Scenario.world "SAFE" (Some [Scenario.fox_candidate])
             Scenario.first_key_without_image 1700000000000 in
  let p := Str "a cat" in
  StabilityRoute.STABILITY_KEYS Scenario.env = ["key-one"; "key-two"]
  /\ Attempt.missing_image (fetch w 0 "key-one" p) = true
  /\ Attempt.attempt (fetch w 1 "key-two" p) = Some (Str "aGVsbG8=")
  /\ snd (StabilityRoute.POST Scenario.env w
            (Scenario.request "a cat" "s3cret" "user-7"))
     = [StabilityFetch 0 "key-one" p;
        GenerateContent IMAGE_GENERATION_MODEL (image_request p);
        CloudinaryUpload "data:image/png;base64,iVBORw0KGgo="
          "gemini-telegram-images" "generated-1700000000000"].
Proof. cbv zeta. repeat split; reflexivity. Qed.

(** C3, at its failing input.  With three keys, the first attempt fails
    with a non-success status, the second fails by answering 200 without
    an image, and the third would succeed: the handler makes two primary
    attempts, not three, calls the Gemini image model, and uploads the
    Gemini image instead of the one the third key would have returned. *)
Theorem image_less_answer_cuts_the_chain_short :
  let w := Scenario.world "SAFE" (Some [Scenario.fox_candidate])
             Cases.second_key_without_image 1700000000000 in
  let p := Str "a cat" in
  let t := snd (StabilityRoute.POST Cases.three_keys w
                  (Scenario.request "a cat" "s3cret" "user-7")) in
  StabilityRoute.STABILITY_KEYS Cases.three_keys
  = ["key-one"; "key-two"; "key-three"]
  /\ Attempt.non_success_status (fetch w 0 "key-one" p) = true
  /\ Attempt.missing_image (fetch w 1 "key-two" p) = true
  /\ Attempt.attempt (fetch w 2 "key-three" p) = Some (Str "aGVsbG8=")
  /\ stability_keys_tried t = ["key-one"; "key-two"]
  /\ existsb is_image_model_call t = true
  /\ filter is_upload_call t
     = [CloudinaryUpload "data:image/png;base64,iVBORw0KGgo="
          "gemini-telegram-images" "generated-1700000000000"].
Proof. cbv zeta. repeat split; reflexivity. Qed.

Lemma exhausted_providers_answer_500_witness :
  exists r t,
    StabilityRoute.POST Scenario.env
      (Scenario.world "SAFE" None (fun _ => Scenario.malformed_reply)
         1700000000000)
      (Scenario.request "a cat" "s3cret" "user-7") = (Responded r, t)
    /\ status r = 500
    /\ Js.get (body r) "status" = Str "error"
    /\ Js.get (body r) "message" = Str "No image candidates found"
    /\ has_field (body r) "imageUrl" = false
    /\ existsb is_upload_call t = false.
Proof.
  apply (exhausted_providers_answer_500 Scenario.env
           (Scenario.world "SAFE" None (fun _ => Scenario.malformed_reply)
              1700000000000)
           (Scenario.json_body "a cat" "s3cret" "user-7")
           {| Sdk.response_text := inr "";
              Sdk.candidates := None;
              Sdk.promptFeedback := Undefined |}).
  - reflexivity.
  - reflexivity.
  - intros j k _. reflexivity.
  - reflexivity.
  - left. reflexivity.
Defined.

(** ** Further properties of [route.ts] *)

(** A verdict in ASCII text that does not begin with UNSAFE lets the
    request through: the image model is the next call, with the prompt as
    its only part. *)
Theorem safe_verdict_reaches_image_model env w v g t :
  Js.nullish v = false ->
  Js.strict_eq_opt_string (Js.get v "sharedSecret")
    (process_env.SHARED_SECRET env) = true ->
  generateContent w MODERATION_MODEL
    (Arr [Str Route.moderationInstruction; Js.get v "prompt"]) = inr g ->
  Sdk.response_text g = inr t ->
  JsString.is_ascii t = true ->
  JsString.startsWith (JsString.toUpperCase (JsString.trim t)) "UNSAFE"
  = false ->
  exists rest,
    snd (Route.POST env w (JsonBody v))
    = GenerateContent MODERATION_MODEL
        (Arr [Str Route.moderationInstruction; Js.get v "prompt"])
      :: GenerateContent IMAGE_GENERATION_MODEL
           (image_request (Js.get v "prompt"))
      :: rest.
Proof.
  intros Hn Hs Hg Ht _ Hu. run_handler. rewrite Hn. cbn. rewrite Hs. cbn.
  unfold model_generateContent, await, lift.
  rewrite Hg. cbn. rewrite Ht. cbn. rewrite Hu. cbn.
  repeat branch; eexists; reflexivity.
Qed.

(** When the moderation call itself throws, the request fails closed: the
    answer is the 500 error shape with the error's message and the prompt,
    and neither the image model nor the uploader is called. *)
Theorem moderation_failure_fails_closed env w v e :
  Js.nullish v = false ->
  Js.strict_eq_opt_string (Js.get v "sharedSecret")
    (process_env.SHARED_SECRET env) = true ->
  generateContent w MODERATION_MODEL
    (Arr [Str Route.moderationInstruction; Js.get v "prompt"]) = inl e ->
  response_text e = None ->
  Route.POST env w (JsonBody v) =
  (Responded {| status := 500;
                body := Obj [("status", Str "error");
                             ("message",
                              Js.or (message e) (Str "Internal server error"));
                             ("prompt", Js.get v "prompt");
                             ("details", stringified e)] |},
   [GenerateContent MODERATION_MODEL
      (Arr [Str Route.moderationInstruction; Js.get v "prompt"])]).
Proof.
  intros Hn Hs Hg He. run_handler. rewrite Hn. cbn. rewrite Hs. cbn.
  unfold model_generateContent, await. rewrite Hg. cbn.
  rewrite He. reflexivity.
Qed.

(** The [catch] clause awaits [error.response.text()] unguarded: when that
    call throws, the handler's promise rejects with its error instead of
    answering. *)
Theorem throwing_response_text_escapes env w v e e' :
  Js.nullish v = false ->
  Js.strict_eq_opt_string (Js.get v "sharedSecret")
    (process_env.SHARED_SECRET env) = true ->
  generateContent w MODERATION_MODEL
    (Arr [Str Route.moderationInstruction; Js.get v "prompt"]) = inl e ->
  response_text e = Some (inl e') ->
  Route.POST env w (JsonBody v) =
  (Rejected e',
   [GenerateContent MODERATION_MODEL
      (Arr [Str Route.moderationInstruction; Js.get v "prompt"])]).
Proof.
  intros Hn Hs Hg He. run_handler. rewrite Hn. cbn. rewrite Hs. cbn.
  unfold model_generateContent, await. rewrite Hg. cbn.
  rewrite He. reflexivity.
Qed.

(** Conversely the handler always answers when every error the SDK can
    throw is [catchable]; what the uploader throws never matters. *)
Theorem responds_when_errors_catchable env w req :
  (forall model request e,
      generateContent w model request = inl e -> catchable e = true) ->
  (forall model request g e,
      generateContent w model request = inr g ->
      Sdk.response_text g = inl e -> catchable e = true) ->
  exists r, fst (Route.POST env w req) = Responded r.
Proof.
  intros Hcall Htext. run_handler.
  destruct req as [msg|v]; cbn; [eauto|].
  destruct (Js.nullish v) eqn:Hn; cbn; [eauto|].
  unfold model_generateContent, await, lift.
  repeat branch; eauto;
    repeat match goal with
           | H : generateContent _ _ _ = inl ?e |- _ =>
               apply Hcall in H; unfold catchable in H
           | H : generateContent _ _ _ = inr ?g,
             H' : Sdk.response_text ?g = inl ?e |- _ =>
               apply (Htext _ _ _ _ H) in H'; unfold catchable in H'
           end;
    repeat match goal with
           | H : response_text ?e = _, H' : context [response_text ?e] |- _ =>
               rewrite H in H'
           end; discriminate.
Qed.

(** The upload is attempted once and never retried: when the uploader
    throws, the answer is the 500 upload-failure shape carrying the
    uploader's message, and it has no [imageUrl]. *)
Theorem upload_failure_is_not_retried env w req e :
  (forall file folder id, upload w file folder id = inl e) ->
  forall r,
    responded (Route.POST env w req) = Some r ->
    existsb is_upload_call (snd (Route.POST env w req)) = true ->
    length (filter is_upload_call (snd (Route.POST env w req))) = 1%nat
    /\ status r = 500
    /\ Js.get (body r) "message"
       = Str "Failed to upload image to cloud storage"
    /\ Js.get (body r) "cloudinaryError" = message e
    /\ has_field (body r) "imageUrl" = false.
Proof.
  intros Hup r. unfold responded. run_handler.
  destruct req as [msg|v]; cbn; [discriminate|].
  destruct (Js.nullish v) eqn:Hn; cbn; [discriminate|].
  unfold model_generateContent, await, lift.
  repeat branch; try discriminate;
    try (rewrite Hup in *; discriminate).
  all: match goal with
       | H : upload _ _ _ _ = inl _ |- _ => rewrite Hup in H; injection H as <-
       end.
  all: intros [= <-] _; cbn; auto.
Qed.

(** An uploader that answers without a URL is an error too: status 500,
    ["Image URL not available"], and no [imageUrl] in the answer. *)
Theorem empty_url_is_an_error env w req :
  (forall file folder id,
      upload w file folder id = inr {| Cloudinary.secure_url := "" |}) ->
  forall r,
    responded (Route.POST env w req) = Some r ->
    existsb is_upload_call (snd (Route.POST env w req)) = true ->
    status r = 500
    /\ Js.get (body r) "message" = Str "Image URL not available"
    /\ has_field (body r) "imageUrl" = false.
Proof.
  intros Hup r. unfold responded. run_handler.
  destruct req as [msg|v]; cbn; [discriminate|].
  destruct (Js.nullish v) eqn:Hn; cbn; [discriminate|].
  unfold model_generateContent, await, lift.
  repeat branch; try discriminate;
    try (rewrite Hup in *; discriminate).
  all: match goal with
       | H : upload _ _ _ _ = inr _ |- _ => rewrite Hup in H; injection H as <-
       end.
  all: try discriminate.
  all: intros [= <-] _; cbn; auto.
Qed.

(** When the first candidate has content with parts and none of them is
    an image (the verdict being ASCII text that does not begin with UNSAFE),
    nothing is uploaded and the answer is the 500 shape ["No image part
    found in Gemini response"]. *)
Theorem no_image_part_is_an_error env w v gm t gi candidate0 others parts :
  Js.nullish v = false ->
  Js.strict_eq_opt_string (Js.get v "sharedSecret")
    (process_env.SHARED_SECRET env) = true ->
  generateContent w MODERATION_MODEL
    (Arr [Str Route.moderationInstruction; Js.get v "prompt"]) = inr gm ->
  Sdk.response_text gm = inr t ->
  JsString.is_ascii t = true ->
  JsString.startsWith (JsString.toUpperCase (JsString.trim t)) "UNSAFE"
  = false ->
  generateContent w IMAGE_GENERATION_MODEL (image_request (Js.get v "prompt"))
  = inr gi ->
  Sdk.candidates gi = Some (candidate0 :: others) ->
  Sdk.content candidate0 = Some {| Sdk.Content.parts := Some parts |} ->
  forallb (fun p => negb (is_image_part p)) parts = true ->
  exists r tr,
    Route.POST env w (JsonBody v) = (Responded r, tr)
    /\ status r = 500
    /\ Js.get (body r) "message"
       = Str "No image part found in Gemini response"
    /\ Js.get (body r) "prompt" = Js.get v "prompt"
    /\ existsb is_upload_call tr = false.
Proof.
  intros Hn Hs Hgm Ht _ Hu Hgi Hc Hcontent Hparts.
  assert (Hfind : find is_image_part parts = None).
  { clear Hcontent. induction parts as [|p ps IH]; [reflexivity|].
    cbn in *. apply andb_prop in Hparts as [Hp Hps].
    apply negb_true_iff in Hp. rewrite Hp. auto. }
  run_handler. rewrite Hn. cbn. rewrite Hs. cbn.
  unfold model_generateContent, content_parts, await, lift.
  rewrite Hgm. cbn. rewrite Ht. cbn. rewrite Hu. cbn.
  rewrite Hgi. cbn. rewrite Hc. cbn. rewrite Hcontent. cbn.
  rewrite Hfind. cbn.
  do 2 eexists. split; [reflexivity|]. cbn. auto.
Qed.

(** A first candidate without content, or whose content has no parts, is
    not the same failure: reading [content.parts.find] throws, and the
    answer is the [catch] clause's 500 shape with the [TypeError]'s
    message; nothing is uploaded. *)
Theorem contentless_candidate_is_a_type_error env w v gm t gi candidate0
    others property :
  Js.nullish v = false ->
  Js.strict_eq_opt_string (Js.get v "sharedSecret")
    (process_env.SHARED_SECRET env) = true ->
  generateContent w MODERATION_MODEL
    (Arr [Str Route.moderationInstruction; Js.get v "prompt"]) = inr gm ->
  Sdk.response_text gm = inr t ->
  JsString.is_ascii t = true ->
  JsString.startsWith (JsString.toUpperCase (JsString.trim t)) "UNSAFE"
  = false ->
  generateContent w IMAGE_GENERATION_MODEL (image_request (Js.get v "prompt"))
  = inr gi ->
  Sdk.candidates gi = Some (candidate0 :: others) ->
  missing_level candidate0 = Some property ->
  Route.POST env w (JsonBody v)
  = (Responded
       {| status := 500;
          body :=
            Obj [("status", Str "error");
                 ("message",
                  Js.or (Str (TypeError_message w (PropertyRead property)))
                        (Str "Internal server error"));
                 ("prompt", Js.get v "prompt");
                 ("details", Str "{}")] |},
     [GenerateContent MODERATION_MODEL
        (Arr [Str Route.moderationInstruction; Js.get v "prompt"]);
      GenerateContent IMAGE_GENERATION_MODEL
        (image_request (Js.get v "prompt"))]).
Proof.
  intros Hn Hs Hgm Ht _ Hu Hgi Hc Hmissing.
  run_handler. rewrite Hn. cbn. rewrite Hs. cbn.
  unfold model_generateContent, content_parts, await, lift.
  rewrite Hgm. cbn. rewrite Ht. cbn. rewrite Hu. cbn.
  rewrite Hgi. cbn. rewrite Hc. cbn.
  unfold missing_level in Hmissing.
  destruct (Sdk.content candidate0) as [[[ps|]]|];
    [discriminate| |]; injection Hmissing as <-; reflexivity.
Qed.

(** The HTTP status and the body agree: 200 goes with [success] or
    [moderated], 500 with [error], and 401 with the unauthorized body;
    there is no other answer. *)
Theorem status_matches_body env w req r :
  responded (Route.POST env w req) = Some r ->
  (status r = 200
   /\ (Js.get (body r) "status" = Str "success"
       \/ Js.get (body r) "status" = Str "moderated"))
  \/ (status r = 500 /\ Js.get (body r) "status" = Str "error")
  \/ (status r = 401
      /\ body r = Obj [("error", Str "Unauthorized request")]).
Proof.
  unfold responded. run_handler.
  destruct req as [msg|v]; cbn.
  - intros [= <-]. cbn. auto.
  - destruct (Js.nullish v) eqn:Hn; cbn.
    + intros [= <-]. cbn. auto.
    + unfold model_generateContent, await, lift.
      repeat branch;
        first [ discriminate | intros [= <-]; cbn; auto 6 ].
Qed.

(** The external calls of a request are an initial segment of the
    pipeline: moderation, then the image model, then one upload; each at
    most once, none out of order. *)
Theorem calls_follow_the_pipeline env w req :
  exists file,
    is_prefix (snd (Route.POST env w req))
              (route_pipeline w (requestPrompt_of req) file).
Proof.
  run_handler.
  destruct req as [msg|v]; cbn.
  - exists "". exact I.
  - destruct (Js.nullish v) eqn:Hn; cbn.
    + exists "". exact I.
    + unfold model_generateContent, await, lift.
      repeat branch;
        first [ exists ""; cbn; tauto
              | eexists; cbn; repeat split ].
Qed.

(** A success answer reports the URL the uploader returned, non-empty, in
    both [imageUrl] and [generatedImage.imageUrl], and its [message] is the
    caption. *)
Theorem success_reports_the_stored_url env w req r :
  responded (Route.POST env w req) = Some r ->
  Js.get (body r) "status" = Str "success" ->
  exists file u,
    upload w file "gemini-telegram-images" (Route.public_id w) = inr u
    /\ JsString.is_empty (Cloudinary.secure_url u) = false
    /\ Js.get (body r) "imageUrl" = Str (Cloudinary.secure_url u)
    /\ Js.get (Js.get (body r) "generatedImage") "imageUrl"
       = Str (Cloudinary.secure_url u)
    /\ Js.get (body r) "message"
       = Js.get (Js.get (body r) "generatedImage") "caption".
Proof.
  unfold responded. run_handler.
  destruct req as [msg|v]; cbn.
  - intros [= <-]. discriminate.
  - destruct (Js.nullish v) eqn:Hn; cbn.
    + intros [= <-]. discriminate.
    + unfold model_generateContent, await, lift.
      repeat branch;
        first [ discriminate
              | intros [= <-]; cbn; first [discriminate | intros _] ].
      all: do 2 eexists; split; [eassumption|]; cbn; auto.
Qed.

(** [chatId] is stored and never read: bodies that agree on [prompt] and
    [sharedSecret] get the same answer and make the same calls. *)
Theorem chatId_is_not_read env w v1 v2 :
  Js.nullish v1 = Js.nullish v2 ->
  Js.get v1 "prompt" = Js.get v2 "prompt" ->
  Js.get v1 "sharedSecret" = Js.get v2 "sharedSecret" ->
  Route.POST env w (JsonBody v1) = Route.POST env w (JsonBody v2).
Proof.
  intros Hn Hp Hs. run_handler.
  rewrite Hn. destruct (Js.nullish v2); [reflexivity|]. cbn.
  rewrite !Hp, !Hs.
  unfold model_generateContent, await, lift.
  repeat branch; reflexivity.
Qed.

(** ** Further properties of the revision with the credential chain *)

Lemma trimStart_head s :
  JsString.trimStart s = EmptyString
  \/ exists c r, JsString.trimStart s = String c r
                 /\ JsString.is_white_space c = false.
Proof.
  induction s as [|c r IH]; cbn; [auto|].
  destruct (JsString.is_white_space c) eqn:E; [exact IH|eauto].
Qed.

Lemma trimEnd_idempotent s :
  JsString.trimEnd (JsString.trimEnd s) = JsString.trimEnd s.
Proof.
  induction s as [|c r IH]; [reflexivity|].
  cbn [JsString.trimEnd].
  destruct (JsString.trimEnd r) as [|c' r'] eqn:E.
  - destruct (JsString.is_white_space c) eqn:W; cbn; [reflexivity|].
    now rewrite W.
  - cbn [JsString.trimEnd] in *. now rewrite IH.
Qed.

Lemma trim_idempotent s : JsString.trim (JsString.trim s) = JsString.trim s.
Proof.
  unfold JsString.trim.
  destruct (trimStart_head s) as [-> | (c & r & -> & W)]; [reflexivity|].
  destruct (trimEnd_keeps_head c r W) as [r' E]. rewrite E.
  cbn [JsString.trimStart]. rewrite W, <- E. apply trimEnd_idempotent.
Qed.

Lemma trimStart_chars a s :
  In a (list_ascii_of_string (JsString.trimStart s)) ->
  In a (list_ascii_of_string s).
Proof.
  induction s as [|c r IH]; cbn; [auto|].
  destruct (JsString.is_white_space c); cbn; auto.
Qed.

Lemma trimEnd_chars a s :
  In a (list_ascii_of_string (JsString.trimEnd s)) ->
  In a (list_ascii_of_string s).
Proof.
  induction s as [|c r IH]; cbn [JsString.trimEnd]; [auto|].
  destruct (JsString.trimEnd r) as [|c' r'].
  - destruct (JsString.is_white_space c); cbn; tauto.
  - cbn in *. tauto.
Qed.

Lemma split_comma_no_comma s :
  Forall (fun x => ~ has_comma x) (JsString.split_comma s).
Proof.
  unfold has_comma.
  induction s as [|c r IH]; cbn.
  - constructor; [tauto|constructor].
  - destruct (Ascii.eqb_spec c ","%char) as [->|Hc].
    + constructor; [cbn; tauto|exact IH].
    + destruct (JsString.split_comma r) as [|x xs].
      * constructor; [cbn; intuition congruence|constructor].
      * inversion IH; subst. constructor; [|assumption].
        cbn. intuition congruence.
Qed.

Lemma is_ascii_trimStart s :
  JsString.is_ascii s = true -> JsString.is_ascii (JsString.trimStart s) = true.
Proof.
  induction s as [|c r IH]; cbn [JsString.trimStart JsString.is_ascii];
    [auto|].
  intros H. destruct (JsString.is_white_space c); [|exact H].
  apply andb_prop in H as [_ H]. auto.
Qed.

Lemma is_ascii_trimEnd s :
  JsString.is_ascii s = true -> JsString.is_ascii (JsString.trimEnd s) = true.
Proof.
  induction s as [|c r IH]; cbn [JsString.trimEnd]; [auto|].
  cbn [JsString.is_ascii]. intros H. apply andb_prop in H as [Hc Hr].
  specialize (IH Hr).
  destruct (JsString.trimEnd r) as [|c' r'].
  - destruct (JsString.is_white_space c); cbn [JsString.is_ascii];
      [reflexivity|]. now rewrite Hc.
  - cbn [JsString.is_ascii] in *. now rewrite Hc, IH.
Qed.

Lemma is_ascii_split_comma s :
  JsString.is_ascii s = true ->
  Forall (fun x => JsString.is_ascii x = true) (JsString.split_comma s).
Proof.
  induction s as [|c r IH]; cbn [JsString.split_comma JsString.is_ascii].
  - intros _. constructor; [reflexivity|constructor].
  - intros H. apply andb_prop in H as [Hc Hr]. specialize (IH Hr).
    destruct (Ascii.eqb c ","%char).
    + constructor; [reflexivity|exact IH].
    + destruct (JsString.split_comma r) as [|x xs].
      * constructor; [cbn [JsString.is_ascii]; now rewrite Hc|constructor].
      * inversion IH; subst. constructor; [|assumption].
        cbn [JsString.is_ascii]. rewrite Hc. assumption.
Qed.

(** When the configured value is ASCII text, every key is usable as it
    stands: ASCII, not empty, free of surrounding white space, and free of
    commas. *)
Theorem configured_keys_are_clean env :
  (forall raw, StabilityRoute.STABILITY_KEYS_RAW env = Some raw ->
               JsString.is_ascii raw = true) ->
  Forall (fun key => JsString.is_ascii key = true
                     /\ JsString.is_empty key = false
                     /\ JsString.trim key = key
                     /\ ~ has_comma key)
         (StabilityRoute.STABILITY_KEYS env).
Proof.
  intros Hascii. unfold StabilityRoute.STABILITY_KEYS.
  destruct (StabilityRoute.STABILITY_KEYS_RAW env) as [raw|]; [|constructor].
  specialize (Hascii raw eq_refl).
  destruct (JsString.is_empty raw); [constructor|].
  apply Forall_forall. intros key Hk.
  apply filter_In in Hk as [Hin Hne].
  apply in_map_iff in Hin as (x & <- & Hx).
  repeat split.
  - unfold JsString.trim. apply is_ascii_trimEnd, is_ascii_trimStart.
    pose proof (is_ascii_split_comma raw Hascii) as Hall.
    rewrite Forall_forall in Hall. exact (Hall x Hx).
  - now apply negb_true_iff.
  - apply trim_idempotent.
  - intros Hc. unfold has_comma, JsString.trim in Hc.
    apply trimEnd_chars, trimStart_chars in Hc.
    pose proof (split_comma_no_comma raw) as Hall.
    rewrite Forall_forall in Hall. exact (Hall x Hx Hc).
Qed.

Lemma or_truthy_l a b : Js.truthy a = true -> Js.or a b = a.
Proof. unfold Js.or. now intros ->. Qed.

Lemma or_falsy_l a b : Js.truthy a = false -> Js.or a b = b.
Proof. unfold Js.or. now intros ->. Qed.

(** The [||] chain picks the first truthy of [image],
    [artifacts[0].base64], [artifacts[0].b64_json] and
    [artifacts[0].base64_image]; with none truthy the attempt has no usable
    image. *)
Theorem extract_base64_first_truthy data :
  let artifact0 := Js.get0 (Js.get data "artifacts") in
  let candidates := [Js.get data "image"; Js.get artifact0 "base64";
                     Js.get artifact0 "b64_json";
                     Js.get artifact0 "base64_image"] in
  match find Js.truthy candidates with
  | Some b => StabilityRoute.extract_base64 data = b
  | None => Js.truthy (StabilityRoute.extract_base64 data) = false
  end.
Proof.
  cbv zeta. unfold StabilityRoute.extract_base64. cbn [find].
  set (artifact0 := Js.get0 (Js.get data "artifacts")).
  destruct (Js.truthy (Js.get data "image")) eqn:H1.
  { now rewrite !(or_truthy_l _ _ H1). }
  rewrite (or_falsy_l _ _ H1).
  destruct (Js.truthy (Js.get artifact0 "base64")) eqn:H2.
  { now rewrite !(or_truthy_l _ _ H2). }
  rewrite (or_falsy_l _ _ H2).
  destruct (Js.truthy (Js.get artifact0 "b64_json")) eqn:H3.
  { now rewrite !(or_truthy_l _ _ H3). }
  rewrite (or_falsy_l _ _ H3).
  destruct (Js.truthy (Js.get artifact0 "base64_image")) eqn:H4;
    reflexivity.
Qed.

(** With no key configured the Stability endpoint is never called: the
    first call of an authorized request is the Gemini image model. *)
Theorem no_keys_goes_to_gemini env w v :
  Js.nullish v = false ->
  Js.strict_eq_opt_string (Js.get v "sharedSecret")
    (process_env.SHARED_SECRET env) = true ->
  StabilityRoute.STABILITY_KEYS env = [] ->
  exists rest,
    snd (StabilityRoute.POST env w (JsonBody v))
    = GenerateContent IMAGE_GENERATION_MODEL
        (image_request (Js.get v "prompt")) :: rest
    /\ existsb is_stability_call rest = false.
Proof.
  intros Hn Hs Hk. run_handler. rewrite Hn. cbn. rewrite Hs. cbn.
  rewrite Hk, stability_block_eq, try_keys_nil. cbn.
  unfold model_generateContent, await.
  repeat branch; eexists; split; reflexivity.
Qed.

(** The first key whose attempt returns an image wins (prompt and image
    being strings): the keys before it, whose attempts threw, were each
    tried once, the keys after it are never tried, the Gemini model is not
    called, and that image is the one uploaded. *)
Theorem first_usable_key_wins env w v prompt before key after image :
  Js.nullish v = false ->
  Js.strict_eq_opt_string (Js.get v "sharedSecret")
    (process_env.SHARED_SECRET env) = true ->
  Js.get v "prompt" = Str prompt ->
  StabilityRoute.STABILITY_KEYS env = (before ++ key :: after)%list ->
  (forall j k, nth_error before j = Some k ->
               Attempt.attempt (fetch w j k (Str prompt)) = None) ->
  Attempt.attempt (fetch w (length before) key (Str prompt))
  = Some (Str image) ->
  JsString.is_empty image = false ->
  snd (StabilityRoute.POST env w (JsonBody v))
  = (stability_calls (Str prompt) 0 (before ++ [key])
     ++ [CloudinaryUpload ("data:image/png;base64," ++ image)
           "gemini-telegram-images" (StabilityRoute.public_id w)])%list.
Proof.
  intros Hn Hs Hprompt Hk Hthrow Hret Hb.
  run_handler. rewrite Hn. cbn. rewrite Hs. cbn.
  rewrite stability_block_eq, Hk, Hprompt.
  rewrite (try_keys_throw_then_return w (Str prompt) before key (Str image)
             after); [|exact Hthrow|exact Hret].
  cbn. rewrite Hb. cbn. rewrite Hb. cbn.
  rewrite StabilityRoute_upload_image_eq. cbn.
  destruct (upload w _ _ _); reflexivity.
Qed.

(** The loop calls the endpoint for an initial segment of the keys, in
    order, once each. *)
Lemma try_keys_calls_a_prefix w p keys : forall i s,
  exists b n,
    StabilityRoute.try_keys w p i keys s
    = (Normal b, s, stability_calls p i (firstn n keys)).
Proof.
  induction keys as [|key rest IH]; intros i s.
  - exists Undefined, 0%nat. reflexivity.
  - rewrite try_keys_cons.
    destruct (Attempt.attempt (fetch w i key p)) as [b|].
    + exists b, 1%nat. reflexivity.
    + destruct (IH (S i) s) as (b & n & ->). exists b, (S n). reflexivity.
Qed.

Lemma chain_calls_shape env w req :
  let p := requestPrompt_of req in
  exists n file,
    let tried :=
      stability_calls p 0 (firstn n (StabilityRoute.STABILITY_KEYS env)) in
    let gemini :=
      GenerateContent IMAGE_GENERATION_MODEL (image_request p) in
    let stored :=
      CloudinaryUpload file "gemini-telegram-images"
        (StabilityRoute.public_id w) in
    let t := snd (StabilityRoute.POST env w req) in
    t = tried \/ t = (tried ++ [gemini])%list
    \/ t = (tried ++ [stored])%list
    \/ t = (tried ++ [gemini; stored])%list.
Proof.
  cbv zeta. run_handler.
  destruct req as [msg|v]; cbn.
  - exists 0%nat, "". auto.
  - destruct (Js.nullish v) eqn:Hn; cbn.
    + exists 0%nat, "". auto.
    + destruct (negb _) eqn:Hs; cbn.
      * exists 0%nat, "". auto.
      * rewrite stability_block_eq.
        destruct (try_keys_calls_a_prefix w (Js.get v "prompt")
                    (StabilityRoute.STABILITY_KEYS env) 0%nat
                    {| chatId := Js.get v "chatId";
                       requestPrompt := Js.get v "prompt" |})
          as (b & n & ->).
        cbn. unfold model_generateContent, await.
        repeat branch;
          first [ exists n, ""; rewrite ?app_nil_r;
                  first [ left; reflexivity | right; left; reflexivity ]
                | exists n; eexists; rewrite ?app_nil_r;
                  first [ right; right; left; reflexivity
                        | right; right; right; reflexivity ] ].
Qed.

(** The calls of a request in this revision: Stability calls for an
    initial segment of the keys, then at most one call of the Gemini image
    model, then at most one upload. *)
Theorem chain_calls_follow_the_pipeline env w req :
  let p := requestPrompt_of req in
  exists n file,
    let tried :=
      stability_calls p 0 (firstn n (StabilityRoute.STABILITY_KEYS env)) in
    let gemini :=
      GenerateContent IMAGE_GENERATION_MODEL (image_request p) in
    let stored :=
      CloudinaryUpload file "gemini-telegram-images"
        (StabilityRoute.public_id w) in
    let t := snd (StabilityRoute.POST env w req) in
    t = tried \/ t = (tried ++ [gemini])%list
    \/ t = (tried ++ [stored])%list
    \/ t = (tried ++ [gemini; stored])%list.
Proof. exact (chain_calls_shape env w req). Qed.

(** This revision never consults the moderation model. *)
Theorem chain_never_moderates env w req :
  existsb is_moderation_call (snd (StabilityRoute.POST env w req)) = false.
Proof.
  destruct (chain_calls_shape env w req) as (n & file & H).
  cbv zeta in H.
  assert (S : forall p i keys,
             existsb is_moderation_call (stability_calls p i keys) = false).
  { intros p i keys. revert i.
    induction keys as [|k keys IH]; intros i; cbn; auto. }
  destruct H as [-> | [-> | [-> | ->]]];
    rewrite ?existsb_app, S; reflexivity.
Qed.

(** When no key yields an image and the Gemini model's first candidate
    has an image part with data, that part is what is uploaded, under its
    own media type, and the caption is the candidate's text (the prompt if
    it has none). *)
Theorem fallback_image_is_uploaded env w v g candidate0 others part
    inlineData :
  Js.nullish v = false ->
  Js.strict_eq_opt_string (Js.get v "sharedSecret")
    (process_env.SHARED_SECRET env) = true ->
  (forall j k, nth_error (StabilityRoute.STABILITY_KEYS env) j = Some k ->
               Attempt.fails (fetch w j k (Js.get v "prompt")) = true) ->
  generateContent w IMAGE_GENERATION_MODEL (image_request (Js.get v "prompt"))
  = inr g ->
  Sdk.candidates g = Some (candidate0 :: others) ->
  find is_image_part (Sdk.parts candidate0) = Some part ->
  Sdk.inlineData part = Some inlineData ->
  JsString.is_empty (Sdk.data inlineData) = false ->
  let file := "data:" ++ Sdk.mimeType inlineData ++ ";base64,"
              ++ Sdk.data inlineData in
  let caption := match find is_text_part (Sdk.parts candidate0) with
                 | Some p => Sdk.js_of_string_option (Sdk.text p)
                 | None => Js.get v "prompt"
                 end in
  let o := StabilityRoute.POST env w (JsonBody v) in
  filter is_upload_call (snd o)
  = [CloudinaryUpload file "gemini-telegram-images"
       (StabilityRoute.public_id w)]
  /\ forall u,
       upload w file "gemini-telegram-images" (StabilityRoute.public_id w)
       = inr u ->
       fst o
       = Responded
           {| status := 200;
              body :=
                Obj [("status", Str "success");
                     ("imageUrl", Str (Cloudinary.secure_url u));
                     ("message", caption);
                     ("prompt", Js.get v "prompt");
                     ("generatedImage",
                      Obj [("mimeType", Str (Sdk.mimeType inlineData));
                           ("caption", caption);
                           ("imageUrl", Str (Cloudinary.secure_url u))])] |}.
Proof.
  intros Hn Hs Hfail Hg Hc Hp Hi Hd file caption o. subst file caption o.
  destruct (try_keys_all_fail w (Js.get v "prompt")
              (StabilityRoute.STABILITY_KEYS env) 0
              {| chatId := Js.get v "chatId";
                 requestPrompt := Js.get v "prompt" |} Hfail)
    as (b & t & Ek & Hb & Ht).
  assert (Hnone : filter is_upload_call t = []).
  { clear Ek. induction t as [|c t IH]; [reflexivity|].
    cbn in Ht. apply andb_prop in Ht as [Hc' Ht]. cbn.
    destruct c; try discriminate. cbn. auto. }
  pose proof (content_of_image_part _ _ Hp) as Hparts.
  run_handler. rewrite Hn. cbn. rewrite Hs. cbn.
  rewrite stability_block_eq, Ek. cbn. rewrite Hb. cbn.
  unfold model_generateContent, content_parts, await. rewrite Hg. cbn.
  rewrite Hc. cbn. rewrite Hparts. cbn.
  rewrite Hp. cbn. rewrite Hi. cbn. rewrite Hd. cbn.
  rewrite StabilityRoute_upload_image_eq. cbn.
  destruct (upload w _ _ _) as [e|u] eqn:Hup; cbn;
    rewrite !filter_app, Hnone; cbn; split; try reflexivity.
  - intros u' [=].
  - intros u' [= <-]. reflexivity.
Qed.

(** An image part whose data is the empty string counts as no image:
    nothing is uploaded and the answer is the 500 shape ["Failed to
    generate image from any provider"]. *)
Theorem empty_fallback_image_is_an_error env w v g candidate0 others part
    inlineData :
  Js.nullish v = false ->
  Js.strict_eq_opt_string (Js.get v "sharedSecret")
    (process_env.SHARED_SECRET env) = true ->
  (forall j k, nth_error (StabilityRoute.STABILITY_KEYS env) j = Some k ->
               Attempt.fails (fetch w j k (Js.get v "prompt")) = true) ->
  generateContent w IMAGE_GENERATION_MODEL (image_request (Js.get v "prompt"))
  = inr g ->
  Sdk.candidates g = Some (candidate0 :: others) ->
  find is_image_part (Sdk.parts candidate0) = Some part ->
  Sdk.inlineData part = Some inlineData ->
  Sdk.data inlineData = "" ->
  exists t,
    StabilityRoute.POST env w (JsonBody v)
    = (Responded
         {| status := 500;
            body := Obj [("status", Str "error");
                         ("message",
                          Str "Failed to generate image from any provider");
                         ("prompt", Js.get v "prompt")] |}, t)
    /\ existsb is_upload_call t = false.
Proof.
  intros Hn Hs Hfail Hg Hc Hp Hi Hd.
  destruct (try_keys_all_fail w (Js.get v "prompt")
              (StabilityRoute.STABILITY_KEYS env) 0
              {| chatId := Js.get v "chatId";
                 requestPrompt := Js.get v "prompt" |} Hfail)
    as (b & t & Ek & Hb & Ht).
  pose proof (content_of_image_part _ _ Hp) as Hparts.
  run_handler. rewrite Hn. cbn. rewrite Hs. cbn.
  rewrite stability_block_eq, Ek. cbn. rewrite Hb. cbn.
  unfold model_generateContent, content_parts, await. rewrite Hg. cbn.
  rewrite Hc. cbn. rewrite Hparts. cbn.
  rewrite Hp. cbn. rewrite Hi. cbn. rewrite Hd. cbn.
  eexists. split; [reflexivity|].
  rewrite !existsb_app, (stability_calls_only_no_upload t Ht). reflexivity.
Qed.

(** What a non-success answer of the Stability endpoint turns into: an
    error whose message holds the status and the stringified body (the
    body's text when it is not JSON); when the body cannot be read at all,
    the read error is thrown in its place.  Exactly one call is made. *)
Theorem non_success_status_error w i p key res s :
  fetch w i key p = inr res ->
  Fetch.ok res = false ->
  let error_of body :=
    Error ("Stability API error " ++ JsString.of_Z (Fetch.status res)
             ++ ": " ++ JSON_stringify w body) in
  StabilityRoute.generateWithStability w i p key s
  = (Throw match Fetch.json res, Fetch.text res with
           | inr body, _ => error_of body
           | inl _, inr t => error_of (Str t)
           | inl _, inl e => e
           end, s, [StabilityFetch i key p]).
Proof.
  intros Hf Hok. cbv zeta.
  unfold StabilityRoute.generateWithStability, bind, await.
  rewrite Hf, Hok. cbn. unfold try_catch, lift, bind.
  destruct (Fetch.json res); cbn; [|reflexivity].
  destruct (Fetch.text res); reflexivity.
Qed.

(** The caller never sees why a key failed: two worlds whose Stability
    answers agree on what each attempt returns, and that agree elsewhere,
    get the same outcome, whatever statuses, bodies or errors the failed
    attempts carried. *)
Theorem key_failures_are_invisible env w1 w2 req :
  (forall i key p,
      Attempt.attempt (fetch w1 i key p) = Attempt.attempt (fetch w2 i key p)) ->
  (forall model request,
      generateContent w1 model request = generateContent w2 model request) ->
  (forall file folder id, upload w1 file folder id = upload w2 file folder id) ->
  Date_now w1 = Date_now w2 ->
  TypeError_message w1 = TypeError_message w2 ->
  fst (StabilityRoute.POST env w1 req) = fst (StabilityRoute.POST env w2 req).
Proof.
  intros Hfetch Hgen Hup Hnow Hmsg.
  assert (Hloop : forall p keys i s,
             fst (StabilityRoute.try_keys w1 p i keys s)
             = fst (StabilityRoute.try_keys w2 p i keys s)).
  { intros p keys. induction keys as [|key rest IH]; intros i s.
    - reflexivity.
    - rewrite !try_keys_cons, Hfetch.
      destruct (Attempt.attempt (fetch w2 i key p)); [reflexivity|].
      specialize (IH (S i) s).
      destruct (StabilityRoute.try_keys w1 p (S i) rest s) as [[c1 s1] t1].
      destruct (StabilityRoute.try_keys w2 p (S i) rest s) as [[c2 s2] t2].
      cbn in *. exact IH. }
  run_handler.
  destruct req as [msg|v]; cbn; [reflexivity|].
  rewrite Hmsg.
  destruct (Js.nullish v) eqn:Hn; cbn; [reflexivity|].
  destruct (negb _) eqn:Hs; cbn; [reflexivity|].
  rewrite !stability_block_eq.
  specialize (Hloop (Js.get v "prompt") (StabilityRoute.STABILITY_KEYS env)
                0%nat {| chatId := Js.get v "chatId";
                         requestPrompt := Js.get v "prompt" |}).
  destruct (try_keys_normal w1 (Js.get v "prompt")
              (StabilityRoute.STABILITY_KEYS env) 0%nat
              {| chatId := Js.get v "chatId";
                 requestPrompt := Js.get v "prompt" |}) as (b1 & t1 & E1).
  destruct (try_keys_normal w2 (Js.get v "prompt")
              (StabilityRoute.STABILITY_KEYS env) 0%nat
              {| chatId := Js.get v "chatId";
                 requestPrompt := Js.get v "prompt" |}) as (b2 & t2 & E2).
  rewrite E1, E2 in *. cbn in Hloop. injection Hloop as <-.
  cbn.
  destruct (Js.truthy b1) eqn:Hb; cbn.
  - rewrite Hb. cbn. rewrite !StabilityRoute_upload_image_eq, Hmsg.
    destruct (Js.to_string b1) as [image|]; [|reflexivity].
    unfold StabilityRoute.public_id. rewrite Hnow, !Hup.
    destruct (upload w2 _ _ _); reflexivity.
  - unfold StabilityRoute.gemini_fallback, model_generateContent,
      content_parts, await, bind.
    rewrite Hgen, Hmsg.
    destruct (generateContent w2 _ _) as [e|g]; cbn;
      [repeat branch; reflexivity|].
    destruct (Sdk.candidates g) as [[|c0 cs]|]; cbn; try reflexivity.
    destruct (Sdk.content c0) as [[[ps|]]|]; cbn; [|reflexivity..].
    destruct (find is_image_part ps) as [part|]; cbn; [|reflexivity].
    destruct (Sdk.inlineData part) as [d|]; cbn; [|reflexivity].
    destruct (JsString.is_empty (Sdk.data d)); cbn; [reflexivity|].
    rewrite !StabilityRoute_upload_image_eq. cbn.
    unfold StabilityRoute.public_id. rewrite Hnow, !Hup.
    destruct (upload w2 _ _ _); reflexivity.
Qed.

(** ** The oldest revision *)

(** A success answer of the oldest revision carries the image data itself,
    as the image model returned it, under the fixed message ["Image sent to
    Telegram"]; it has no [imageUrl], and the request made exactly the
    moderation call and the image call. *)
Theorem inline_success_carries_the_image env w req r :
  responded (InlineRoute.POST env w req) = Some r ->
  Js.get (body r) "status" = Str "success" ->
  let p := requestPrompt_of req in
  exists g candidate0 others part inlineData,
    generateContent w IMAGE_GENERATION_MODEL (image_request p) = inr g
    /\ Sdk.candidates g = Some (candidate0 :: others)
    /\ find is_image_part (Sdk.parts candidate0) = Some part
    /\ Sdk.inlineData part = Some inlineData
    /\ Js.get (Js.get (body r) "generatedImage") "data"
       = Str (Sdk.data inlineData)
    /\ Js.get (Js.get (body r) "generatedImage") "mimeType"
       = Str (Sdk.mimeType inlineData)
    /\ Js.get (body r) "message" = Str "Image sent to Telegram"
    /\ has_field (body r) "imageUrl" = false
    /\ snd (InlineRoute.POST env w req)
       = [GenerateContent MODERATION_MODEL
            (Arr [Str Route.moderationInstruction; p]);
          GenerateContent IMAGE_GENERATION_MODEL (image_request p)].
Proof.
  cbv zeta. unfold responded, InlineRoute.POST, InlineRoute.try_block.
  run_handler.
  destruct req as [msg|v]; cbn.
  - intros [= <-]. discriminate.
  - destruct (Js.nullish v) eqn:Hn; cbn.
    + intros [= <-]. discriminate.
    + unfold model_generateContent, await, lift.
      repeat branch;
        first [ discriminate
              | intros [= <-]; cbn; first [discriminate | intros _] ].
      all: match goal with
           | H : option_map _ ?f = Some (Some _) |- _ =>
               destruct f as [part|] eqn:Hfind; [|discriminate H];
               cbn in H; injection H as H
           end.
      all: match goal with
           | H : Sdk.content ?c = Some ?ct,
             H' : Sdk.Content.parts ?ct = Some ?ps |- _ =>
               assert (Hps : ps = Sdk.parts c)
                 by (unfold Sdk.parts; rewrite H; destruct ct; cbn in H';
                     now rewrite H');
               rewrite Hps in *
           end.
      all: do 5 eexists; repeat split; eassumption.
Qed.

(** The upload revision changed the success path only: whenever the oldest
    revision does not answer [success], [route.ts] gives the same answer
    after the same calls. *)
Theorem upload_revision_changes_success_only env w req :
  (forall r, responded (InlineRoute.POST env w req) = Some r ->
             Js.get (body r) "status" <> Str "success") ->
  Route.POST env w req = InlineRoute.POST env w req.
Proof.
  unfold responded, InlineRoute.POST, InlineRoute.try_block. run_handler.
  destruct req as [msg|v]; cbn; [reflexivity|].
  destruct (Js.nullish v) eqn:Hn; cbn; [reflexivity|].
  unfold model_generateContent, await, lift.
  repeat branch; intros H; try reflexivity.
  all: exfalso; eapply H; reflexivity.
Qed.

(** ** The Telegram helpers *)

(** Neither helper ever rejects: whatever [fetch] or [response.text()]
    does, the promise is fulfilled. *)
Theorem telegram_helpers_never_reject h chatId text imageUrl caption :
  fst (Telegram.sendTelegramMessage h chatId text) = inr tt
  /\ fst (Telegram.sendTelegramPhoto h chatId imageUrl caption) = inr tt.
Proof.
  unfold Telegram.sendTelegramMessage, Telegram.sendTelegramPhoto,
    Telegram.try_catch, Telegram.bind, Telegram.await_fetch, Telegram.lift,
    Telegram.console_error, Telegram.ret.
  destruct (Telegram.token_missing h); [split; reflexivity|].
  split.
  - destruct (Telegram.fetch h _ _) as [e|res]; [reflexivity|].
    destruct (Telegram.ok res); cbn; [reflexivity|].
    destruct (Telegram.text res); reflexivity.
  - destruct (Telegram.fetch h _ _) as [e|res]; [reflexivity|].
    destruct (Telegram.ok res); cbn; [reflexivity|].
    destruct (Telegram.text res); reflexivity.
Qed.

(** Without a bot token (unset or empty) nothing reaches the network: each
    helper logs once and stops. *)
Theorem telegram_needs_a_token h chatId text imageUrl caption :
  Telegram.token_missing h = true ->
  Telegram.fetched (snd (Telegram.sendTelegramMessage h chatId text)) = []
  /\ Telegram.logged (snd (Telegram.sendTelegramMessage h chatId text)) = 1%nat
  /\ Telegram.fetched
       (snd (Telegram.sendTelegramPhoto h chatId imageUrl caption)) = []
  /\ Telegram.logged
       (snd (Telegram.sendTelegramPhoto h chatId imageUrl caption)) = 1%nat.
Proof.
  intros H. unfold Telegram.sendTelegramMessage, Telegram.sendTelegramPhoto.
  rewrite H. repeat split.
Qed.

(** With a token, [sendTelegramMessage] sends exactly one request, a POST
    to the bot's [sendMessage] method whose body is the JSON of
    [{ chat_id, text, parse_mode: 'Markdown' }], and never retries. *)
Theorem sendTelegramMessage_sends_once h tok chatId text :
  Telegram.TELEGRAM_BOT_TOKEN h = Some tok ->
  JsString.is_empty tok = false ->
  Telegram.fetched (snd (Telegram.sendTelegramMessage h chatId text))
  = [("https://api.telegram.org/bot" ++ tok ++ "/sendMessage",
      Obj [("method", Str "POST");
           ("headers", Obj [("Content-Type", Str "application/json")]);
           ("body",
            Str (Telegram.JSON_stringify h
                   (Obj [("chat_id", chatId); ("text", Str text);
                         ("parse_mode", Str "Markdown")])))])].
Proof.
  intros Ht He.
  unfold Telegram.sendTelegramMessage, Telegram.token_missing, Telegram.token.
  rewrite Ht, He.
  unfold Telegram.try_catch, Telegram.bind, Telegram.await_fetch,
    Telegram.lift, Telegram.console_error, Telegram.ret.
  destruct (Telegram.fetch h _ _) as [e|res]; [reflexivity|].
  destruct (Telegram.ok res); cbn; [reflexivity|].
  destruct (Telegram.text res); reflexivity.
Qed.

(** With a token, [sendTelegramPhoto] sends exactly one request, a POST to
    the bot's [sendPhoto] method that carries the image by URL: its body is
    the JSON of [{ chat_id, photo, caption, parse_mode: 'Markdown' }]. *)
Theorem sendTelegramPhoto_sends_once h tok chatId imageUrl caption :
  Telegram.TELEGRAM_BOT_TOKEN h = Some tok ->
  JsString.is_empty tok = false ->
  Telegram.fetched
    (snd (Telegram.sendTelegramPhoto h chatId imageUrl caption))
  = [("https://api.telegram.org/bot" ++ tok ++ "/sendPhoto",
      Obj [("method", Str "POST");
           ("headers", Obj [("Content-Type", Str "application/json")]);
           ("body",
            Str (Telegram.JSON_stringify h
                   (Obj [("chat_id", chatId); ("photo", Str imageUrl);
                         ("caption", Str caption);
                         ("parse_mode", Str "Markdown")])))])].
Proof.
  intros Ht He.
  unfold Telegram.sendTelegramPhoto, Telegram.token_missing, Telegram.token.
  rewrite Ht, He.
  unfold Telegram.try_catch, Telegram.bind, Telegram.await_fetch,
    Telegram.lift, Telegram.console_error, Telegram.ret.
  destruct (Telegram.fetch h _ _) as [e|res]; [reflexivity|].
  destruct (Telegram.ok res); cbn; [reflexivity|].
  destruct (Telegram.text res); reflexivity.
Qed.

(** A helper logs exactly when something went wrong: nothing on an OK
    answer, once otherwise (no token, [fetch] threw, or a non-OK answer,
    whether or not its body could be read). *)
Theorem telegram_logs_failures_only h chatId text :
  let run := Telegram.sendTelegramMessage h chatId text in
  let delivered :=
    negb (Telegram.token_missing h)
    && match Telegram.fetch h
               ("https://api.telegram.org/bot" ++ Telegram.token h
                  ++ "/sendMessage")
               (Telegram.post_init h
                  (Telegram.sendMessage_payload chatId text)) with
       | inr res => Telegram.ok res
       | inl _ => false
       end in
  Telegram.logged (snd run) = if delivered then 0%nat else 1%nat.
Proof.
  cbv zeta. unfold Telegram.sendTelegramMessage.
  destruct (Telegram.token_missing h); [reflexivity|]. cbn [negb andb].
  unfold Telegram.try_catch, Telegram.bind, Telegram.await_fetch,
    Telegram.lift, Telegram.console_error, Telegram.ret.
  destruct (Telegram.fetch h _ _) as [e|res]; [reflexivity|].
  destruct (Telegram.ok res); cbn; [reflexivity|].
  destruct (Telegram.text res); reflexivity.
Qed.

(** ** Concrete runs of the further properties *)

Lemma safe_verdict_reaches_image_model_witness :
  exists rest,
    snd (Route.POST Scenario.env (Scenario.fox_world 1700000000000)
           (Scenario.request "a cat" "s3cret" "user-7"))
    = GenerateContent MODERATION_MODEL
        (Arr [Str Route.moderationInstruction; Str "a cat"])
      :: GenerateContent IMAGE_GENERATION_MODEL (image_request (Str "a cat"))
      :: rest.
Proof.
  eapply (safe_verdict_reaches_image_model Scenario.env
            (Scenario.fox_world 1700000000000)
            (Scenario.json_body "a cat" "s3cret" "user-7")
            {| Sdk.response_text := inr "SAFE";
               Sdk.candidates := None;
               Sdk.promptFeedback := Undefined |} "SAFE"); reflexivity.
Defined.

Lemma moderation_failure_fails_closed_witness :
  Route.POST Scenario.env
    (Cases.world (inl (Error "quota exceeded"))
       (Cases.drawn (Some [Scenario.fox_candidate]))
       (fun _ => Scenario.status_reply 500) (Cases.stored "https://cdn/x.png"))
    (Scenario.request "a cat" "s3cret" "user-7")
  = (Responded {| status := 500;
                  body := Obj [("status", Str "error");
                               ("message", Str "quota exceeded");
                               ("prompt", Str "a cat");
                               ("details", Str "{}")] |},
     [GenerateContent MODERATION_MODEL
        (Arr [Str Route.moderationInstruction; Str "a cat"])]).
Proof.
  apply (moderation_failure_fails_closed Scenario.env _
           (Scenario.json_body "a cat" "s3cret" "user-7")
           (Error "quota exceeded")); reflexivity.
Defined.

Lemma throwing_response_text_escapes_witness :
  Route.POST Scenario.env
    (Cases.world (inl Cases.blocked)
       (Cases.drawn (Some [Scenario.fox_candidate]))
       (fun _ => Scenario.status_reply 500) (Cases.stored "https://cdn/x.png"))
    (Scenario.request "a cat" "s3cret" "user-7")
  = (Rejected (Error "Text not available"),
     [GenerateContent MODERATION_MODEL
        (Arr [Str Route.moderationInstruction; Str "a cat"])]).
Proof.
  apply (throwing_response_text_escapes Scenario.env _
           (Scenario.json_body "a cat" "s3cret" "user-7")
           Cases.blocked (Error "Text not available")); reflexivity.
Defined.

Lemma responds_when_errors_catchable_witness :
  exists r,
    fst (Route.POST Scenario.env
           (Cases.world (inl (Error "quota exceeded"))
              (Cases.drawn (Some [Scenario.fox_candidate]))
              (fun _ => Scenario.status_reply 500)
              (Cases.stored "https://cdn/x.png"))
           (Scenario.request "a cat" "s3cret" "user-7"))
    = Responded r.
Proof.
  apply responds_when_errors_catchable.
  - intros model request e. cbn.
    destruct (String.eqb model MODERATION_MODEL); intros [= <-]. reflexivity.
  - intros model request g e. cbn.
    destruct (String.eqb model MODERATION_MODEL); intros [= <-]. discriminate.
Defined.

Lemma upload_failure_is_not_retried_witness :
  exists r,
    responded
      (Route.POST Scenario.env
         (Cases.world (Cases.verdict "SAFE")
            (Cases.drawn (Some [Scenario.fox_candidate]))
            (fun _ => Scenario.status_reply 500)
            (inl (Error "Invalid cloud_name")))
         (Scenario.request "a cat" "s3cret" "user-7")) = Some r
    /\ status r = 500
    /\ Js.get (body r) "cloudinaryError" = Str "Invalid cloud_name".
Proof.
  eexists. split; [reflexivity|].
  destruct (upload_failure_is_not_retried Scenario.env
              (Cases.world (Cases.verdict "SAFE")
                 (Cases.drawn (Some [Scenario.fox_candidate]))
                 (fun _ => Scenario.status_reply 500)
                 (inl (Error "Invalid cloud_name")))
              (Scenario.request "a cat" "s3cret" "user-7")
              (Error "Invalid cloud_name")
              (fun _ _ _ => eq_refl) _ eq_refl eq_refl)
    as (_ & Hs & _ & He & _).
  split; [exact Hs | exact He].
Defined.

Lemma empty_url_is_an_error_witness :
  exists r,
    responded
      (Route.POST Scenario.env
         (Cases.world (Cases.verdict "SAFE")
            (Cases.drawn (Some [Scenario.fox_candidate]))
            (fun _ => Scenario.status_reply 500) (Cases.stored ""))
         (Scenario.request "a cat" "s3cret" "user-7")) = Some r
    /\ status r = 500
    /\ Js.get (body r) "message" = Str "Image URL not available".
Proof.
  eexists. split; [reflexivity|].
  destruct (empty_url_is_an_error Scenario.env
              (Cases.world (Cases.verdict "SAFE")
                 (Cases.drawn (Some [Scenario.fox_candidate]))
                 (fun _ => Scenario.status_reply 500) (Cases.stored ""))
              (Scenario.request "a cat" "s3cret" "user-7")
              (fun _ _ _ => eq_refl) _ eq_refl eq_refl)
    as (Hs & Hm & _).
  split; [exact Hs | exact Hm].
Defined.

Lemma no_image_part_is_an_error_witness :
  exists r tr,
    Route.POST Scenario.env
      (Cases.world (Cases.verdict "SAFE")
         (Cases.drawn (Some [Cases.refusal_candidate]))
         (fun _ => Scenario.status_reply 500)
         (Cases.stored "https://cdn/x.png"))
      (Scenario.request "a cat" "s3cret" "user-7") = (Responded r, tr)
    /\ status r = 500
    /\ Js.get (body r) "message"
       = Str "No image part found in Gemini response"
    /\ Js.get (body r) "prompt" = Str "a cat"
    /\ existsb is_upload_call tr = false.
Proof.
  eapply (no_image_part_is_an_error Scenario.env _
            (Scenario.json_body "a cat" "s3cret" "user-7")
            {| Sdk.response_text := inr "SAFE";
               Sdk.candidates := None;
               Sdk.promptFeedback := Undefined |} "SAFE"
            {| Sdk.response_text := inr "";
               Sdk.candidates := Some [Cases.refusal_candidate];
               Sdk.promptFeedback := Undefined |}
            Cases.refusal_candidate []
            [ {| Sdk.text := Some "I cannot draw that.";
                 Sdk.inlineData := None |} ]);
    reflexivity.
Defined.

Lemma contentless_candidate_is_a_type_error_witness :
  Route.POST Scenario.env
    (Cases.world (Cases.verdict "SAFE")
       (Cases.drawn (Some [ Cases.bare_candidate ]))
       (fun _ => Scenario.status_reply 500)
       (Cases.stored "https://cdn/x.png"))
    (Scenario.request "a cat" "s3cret" "user-7")
  = (Responded
       {| status := 500;
          body :=
            Obj [("status", Str "error");
                 ("message", Str "Cannot read properties of undefined");
                 ("prompt", Str "a cat");
                 ("details", Str "{}")] |},
     [GenerateContent MODERATION_MODEL
        (Arr [Str Route.moderationInstruction; Str "a cat"]);
      GenerateContent IMAGE_GENERATION_MODEL (image_request (Str "a cat"))]).
Proof.
  apply (contentless_candidate_is_a_type_error Scenario.env
           (Cases.world (Cases.verdict "SAFE")
              (Cases.drawn (Some [ Cases.bare_candidate ]))
              (fun _ => Scenario.status_reply 500)
              (Cases.stored "https://cdn/x.png"))
           (Scenario.json_body "a cat" "s3cret" "user-7")
           {| Sdk.response_text := inr "SAFE";
              Sdk.candidates := None;
              Sdk.promptFeedback := Undefined |} "SAFE"
           {| Sdk.response_text := inr "";
              Sdk.candidates := Some [ Cases.bare_candidate ];
              Sdk.promptFeedback := Undefined |}
           Cases.bare_candidate [] "parts"); reflexivity.
Defined.

Lemma configured_keys_are_clean_witness :
  Forall (fun key => JsString.is_ascii key = true
                     /\ JsString.is_empty key = false
                     /\ JsString.trim key = key
                     /\ ~ has_comma key)
         (StabilityRoute.STABILITY_KEYS Cases.three_keys).
Proof.
  apply configured_keys_are_clean.
  intros raw H. injection H as <-. reflexivity.
Defined.

Lemma status_matches_body_witness :
  exists r,
    responded (Route.POST Scenario.env (Scenario.fox_world 1700000000000)
                 (Scenario.request "a cat" "s3cret" "user-7")) = Some r
    /\ ((status r = 200
         /\ (Js.get (body r) "status" = Str "success"
             \/ Js.get (body r) "status" = Str "moderated"))
        \/ (status r = 500 /\ Js.get (body r) "status" = Str "error")
        \/ (status r = 401
            /\ body r = Obj [("error", Str "Unauthorized request")])).
Proof.
  eexists. split; [reflexivity|].
  apply (status_matches_body Scenario.env (Scenario.fox_world 1700000000000)
           (Scenario.request "a cat" "s3cret" "user-7")).
  reflexivity.
Defined.

Lemma success_reports_the_stored_url_witness :
  exists r,
    responded (Route.POST Scenario.env (Scenario.fox_world 1700000000000)
                 (Scenario.request "a cat" "s3cret" "user-7")) = Some r
    /\ exists file u,
         upload (Scenario.fox_world 1700000000000) file
           "gemini-telegram-images"
           (Route.public_id (Scenario.fox_world 1700000000000)) = inr u
         /\ JsString.is_empty (Cloudinary.secure_url u) = false
         /\ Js.get (body r) "imageUrl" = Str (Cloudinary.secure_url u)
         /\ Js.get (Js.get (body r) "generatedImage") "imageUrl"
            = Str (Cloudinary.secure_url u)
         /\ Js.get (body r) "message"
            = Js.get (Js.get (body r) "generatedImage") "caption".
Proof.
  eexists. split; [reflexivity|].
  apply (success_reports_the_stored_url Scenario.env
           (Scenario.fox_world 1700000000000)
           (Scenario.request "a cat" "s3cret" "user-7")); reflexivity.
Defined.

Lemma chatId_is_not_read_witness :
  Route.POST Scenario.env (Scenario.fox_world 1700000000000)
    (JsonBody (Obj [("prompt", Str "a cat"); ("chatId", Num 42);
                    ("sharedSecret", Str "s3cret")]))
  = Route.POST Scenario.env (Scenario.fox_world 1700000000000)
      (JsonBody (Obj [("prompt", Str "a cat"); ("chatId", Str "not a number");
                      ("sharedSecret", Str "s3cret")])).
Proof. apply chatId_is_not_read; reflexivity. Defined.

Lemma no_keys_goes_to_gemini_witness :
  exists rest,
    snd (StabilityRoute.POST Cases.no_keys (Scenario.fox_world 1700000000000)
           (Scenario.request "a cat" "s3cret" "user-7"))
    = GenerateContent IMAGE_GENERATION_MODEL (image_request (Str "a cat"))
      :: rest
    /\ existsb is_stability_call rest = false.
Proof.
  apply (no_keys_goes_to_gemini Cases.no_keys
           (Scenario.fox_world 1700000000000)
           (Scenario.json_body "a cat" "s3cret" "user-7")); reflexivity.
Defined.

Lemma first_usable_key_wins_witness :
  snd (StabilityRoute.POST Cases.three_keys
         (Scenario.world "SAFE" None
            (Scenario.second_key_answers (Obj [("image", Str "aGVsbG8=")]))
            1700000000000)
         (Scenario.request "a cat" "s3cret" "user-7"))
  = [StabilityFetch 0 "key-one" (Str "a cat");
     StabilityFetch 1 "key-two" (Str "a cat");
     CloudinaryUpload "data:image/png;base64,aGVsbG8="
       "gemini-telegram-images" "generated-1700000000000"].
Proof.
  unfold Scenario.request.
  rewrite (first_usable_key_wins Cases.three_keys
             (Scenario.world "SAFE" None
                (Scenario.second_key_answers (Obj [("image", Str "aGVsbG8=")]))
                1700000000000)
             (Scenario.json_body "a cat" "s3cret" "user-7") "a cat"
             ["key-one"] "key-two" ["key-three"] "aGVsbG8=").
  - reflexivity.
  - reflexivity.
  - reflexivity.
  - reflexivity.
  - reflexivity.
  - intros [|[|j]] k Hk; simpl in Hk; first [reflexivity | discriminate Hk].
  - reflexivity.
  - reflexivity.
Defined.

Lemma fallback_image_is_uploaded_witness :
  filter is_upload_call
    (snd (StabilityRoute.POST Scenario.env
            (Scenario.world "SAFE" (Some [Scenario.fox_candidate])
               (fun _ => Scenario.malformed_reply) 1700000000000)
            (Scenario.request "a cat" "s3cret" "user-7")))
  = [CloudinaryUpload "data:image/png;base64,iVBORw0KGgo="
       "gemini-telegram-images" "generated-1700000000000"].
Proof.
  refine (proj1 (fallback_image_is_uploaded Scenario.env
                   (Scenario.world "SAFE" (Some [Scenario.fox_candidate])
                      (fun _ => Scenario.malformed_reply) 1700000000000)
                   (Scenario.json_body "a cat" "s3cret" "user-7")
                   {| Sdk.response_text := inr "";
                      Sdk.candidates := Some [Scenario.fox_candidate];
                      Sdk.promptFeedback := Undefined |}
                   Scenario.fox_candidate []
                   {| Sdk.text := None;
                      Sdk.inlineData :=
                        Some {| Sdk.mimeType := "image/png";
                                Sdk.data := "iVBORw0KGgo=" |} |}
                   {| Sdk.mimeType := "image/png";
                      Sdk.data := "iVBORw0KGgo=" |}
                   _ _ _ _ _ _ _ _));
    first [reflexivity | intros j k _; reflexivity].
Defined.

Lemma empty_fallback_image_is_an_error_witness :
  exists t,
    StabilityRoute.POST Scenario.env
      (Scenario.world "SAFE" (Some [Cases.blank_candidate])
         (fun _ => Scenario.malformed_reply) 1700000000000)
      (Scenario.request "a cat" "s3cret" "user-7")
    = (Responded
         {| status := 500;
            body := Obj [("status", Str "error");
                         ("message",
                          Str "Failed to generate image from any provider");
                         ("prompt", Str "a cat")] |}, t)
    /\ existsb is_upload_call t = false.
Proof.
  eapply (empty_fallback_image_is_an_error Scenario.env _
            (Scenario.json_body "a cat" "s3cret" "user-7")
            {| Sdk.response_text := inr "";
               Sdk.candidates := Some [Cases.blank_candidate];
               Sdk.promptFeedback := Undefined |}
            Cases.blank_candidate []
            {| Sdk.text := None;
               Sdk.inlineData :=
                 Some {| Sdk.mimeType := "image/png"; Sdk.data := "" |} |}
            {| Sdk.mimeType := "image/png"; Sdk.data := "" |});
    first [reflexivity | intros j k _; reflexivity].
Defined.

Lemma non_success_status_error_witness :
  StabilityRoute.generateWithStability
    (Cases.world (Cases.verdict "SAFE") (Cases.drawn None)
       (fun _ => Scenario.status_reply 401) (Cases.stored "https://cdn/x.png"))
    0 (Str "a cat") "key-one" {| chatId := Num 42; requestPrompt := Str "a cat" |}
  = (Throw (Error ("Stability API error 401: "
                     ++ Cases.stringify (Obj [("name", Str "unauthorized")]))),
     {| chatId := Num 42; requestPrompt := Str "a cat" |},
     [StabilityFetch 0 "key-one" (Str "a cat")]).
Proof.
  apply (non_success_status_error
           (Cases.world (Cases.verdict "SAFE") (Cases.drawn None)
              (fun _ => Scenario.status_reply 401)
              (Cases.stored "https://cdn/x.png"))
           0 (Str "a cat") "key-one"
           {| Fetch.ok := false; Fetch.status := 401;
              Fetch.json := inr (Obj [("name", Str "unauthorized")]);
              Fetch.text := inr "" |}); reflexivity.
Defined.

Lemma key_failures_are_invisible_witness :
  fst (StabilityRoute.POST Scenario.env
         (Cases.world (Cases.verdict "SAFE")
            (Cases.drawn (Some [Scenario.fox_candidate]))
            (fun _ => Scenario.status_reply 401)
            (Cases.stored "https://cdn/x.png"))
         (Scenario.request "a cat" "s3cret" "user-7"))
  = fst (StabilityRoute.POST Scenario.env
           (Cases.world (Cases.verdict "SAFE")
              (Cases.drawn (Some [Scenario.fox_candidate]))
              (fun _ => Scenario.malformed_reply)
              (Cases.stored "https://cdn/x.png"))
           (Scenario.request "a cat" "s3cret" "user-7")).
Proof.
  apply key_failures_are_invisible; intros; reflexivity.
Defined.

Lemma inline_success_carries_the_image_witness :
  exists r,
    responded (InlineRoute.POST Scenario.env
                 (Scenario.fox_world 1700000000000)
                 (Scenario.request "a cat" "s3cret" "user-7")) = Some r
    /\ Js.get (Js.get (body r) "generatedImage") "data" = Str "iVBORw0KGgo="
    /\ Js.get (body r) "message" = Str "Image sent to Telegram".
Proof.
  eexists. split; [reflexivity|].
  destruct (inline_success_carries_the_image Scenario.env
              (Scenario.fox_world 1700000000000)
              (Scenario.request "a cat" "s3cret" "user-7") _
              eq_refl eq_refl)
    as (g & c0 & cs & part & d & _ & _ & _ & _ & Hd & _ & Hm & _).
  split; [reflexivity | exact Hm].
Defined.

Lemma upload_revision_changes_success_only_witness :
  Route.POST Scenario.env (Scenario.moderating_world "UNSAFE violence")
    (Scenario.request "a cat" "s3cret" "user-7")
  = InlineRoute.POST Scenario.env (Scenario.moderating_world "UNSAFE violence")
      (Scenario.request "a cat" "s3cret" "user-7").
Proof.
  apply upload_revision_changes_success_only.
  intros r [= <-]. simpl. discriminate.
Defined.

Lemma telegram_needs_a_token_witness :
  Telegram.fetched
    (snd (Telegram.sendTelegramMessage
            (Cases.telegram (Some "") (inl (Error "offline")))
            (Num 42) "hello")) = [].
Proof.
  refine (proj1 (telegram_needs_a_token
                   (Cases.telegram (Some "") (inl (Error "offline")))
                   (Num 42) "hello" "https://cdn/x.png" "a cat" _)).
  reflexivity.
Defined.

Lemma sendTelegramMessage_sends_once_witness :
  Telegram.fetched
    (snd (Telegram.sendTelegramMessage
            (Cases.telegram (Some "123:ABC")
               (inr {| Telegram.ok := false; Telegram.status := 429;
                       Telegram.statusText := "Too Many Requests";
                       Telegram.text := inr "retry later" |}))
            (Num 42) "hello"))
  = [("https://api.telegram.org/bot123:ABC/sendMessage",
      Obj [("method", Str "POST");
           ("headers", Obj [("Content-Type", Str "application/json")]);
           ("body",
            Str (Cases.stringify
                   (Obj [("chat_id", Num 42); ("text", Str "hello");
                         ("parse_mode", Str "Markdown")])))])].
Proof.
  apply (sendTelegramMessage_sends_once
           (Cases.telegram (Some "123:ABC")
              (inr {| Telegram.ok := false; Telegram.status := 429;
                      Telegram.statusText := "Too Many Requests";
                      Telegram.text := inr "retry later" |}))
           "123:ABC" (Num 42) "hello"); reflexivity.
Defined.

Lemma sendTelegramPhoto_sends_once_witness :
  Telegram.fetched
    (snd (Telegram.sendTelegramPhoto
            (Cases.telegram (Some "123:ABC") (inl (Error "offline")))
            (Num 42) "https://cdn/x.png" "a cat"))
  = [("https://api.telegram.org/bot123:ABC/sendPhoto",
      Obj [("method", Str "POST");
           ("headers", Obj [("Content-Type", Str "application/json")]);
           ("body",
            Str (Cases.stringify
                   (Obj [("chat_id", Num 42);
                         ("photo", Str "https://cdn/x.png");
                         ("caption", Str "a cat");
                         ("parse_mode", Str "Markdown")])))])].
Proof.
  apply (sendTelegramPhoto_sends_once
           (Cases.telegram (Some "123:ABC") (inl (Error "offline")))
           "123:ABC" (Num 42) "https://cdn/x.png" "a cat"); reflexivity.
Defined.
